(** * AlloyDB survey MCP server: query construction and dispatch

    A shallow embedding of [alloydb_survey_mcp/database.py] and
    [alloydb_survey_mcp/server.py].

    - Python values that travel through the tool arguments, the bound
      parameter lists and the result rows are the type [pyval].
    - The SQL text is a [string], assembled with the same concatenations
      as the source.
    - Awaited calls into the AlloyDB connector and asyncpg are answered
      by a [driver]: three oracles that see the trace of connection
      events so far.  The code is then a state-and-exception monad [M]
      over that trace, with [try_except] and [try_finally] for the
      Python statements of the same name.
    - Logging is left out; [json.dumps] is kept symbolic ([JsonDumps]).
    - The constructor, [initialize], [close] and [main] read the process
      environment as a finite map and meet the connector through a
      [Startup.world]; [config.py], the environment check of
      [test_server.py] and the two catalogs of [server.py] follow.  *)

From Stdlib Require Import ZArith String Ascii List DecimalString Bool Lia.
From stdpp Require Import base option gmap strings list fin_maps.

Open Scope string_scope.
Open Scope list_scope.
Open Scope stdpp_scope.
Open Scope Z_scope.

(** ** Python values *)

Module Python.

(** The scalar values of a JSON argument mapping, of a bound parameter
    and of a row cell.  Floats, lists and nested objects are outside the
    model. *)
Inductive pyval : Type :=
  | PyNone
  | PyBool (b : bool)
  | PyInt (z : Z)
  | PyStr (s : string).

(** [bool(v)], the test behind [if v:]. *)
Definition truthy (v : pyval) : bool :=
  match v with
  | PyNone => false
  | PyBool b => b
  | PyInt z => negb (z =? 0)
  | PyStr s => negb (String.eqb s "")
  end.

(** [str(n)] for an [int]. *)
Definition str_int (z : Z) : string := NilZero.string_of_int (Z.to_int z).

(** [str(v)], which is also what an f-string field [{v}] renders. *)
Definition py_str (v : pyval) : string :=
  match v with
  | PyNone => "None"
  | PyBool true => "True"
  | PyBool false => "False"
  | PyInt z => str_int z
  | PyStr s => s
  end.

(** An [Optional[int]] and an [Optional[str]] argument as Python values. *)
Definition opt_int (o : option Z) : pyval :=
  match o with Some z => PyInt z | None => PyNone end.

Definition opt_str (o : option string) : pyval :=
  match o with Some s => PyStr s | None => PyNone end.

(** Exceptions.  [Exception cls msg] is any instance of a subclass of
    [Exception] with [str(e) = msg]; [CancelledError] derives from
    [BaseException] only, so [except Exception] lets it through. *)
Inductive exn : Type :=
  | Exception (cls : string) (msg : string)
  | CancelledError.

Definition is_Exception (e : exn) : bool :=
  match e with Exception _ _ => true | CancelledError => false end.

Definition exn_str (e : exn) : string :=
  match e with Exception _ msg => msg | CancelledError => "" end.

Inductive result (A : Type) : Type :=
  | Ok (a : A)
  | Raise (e : exn).
Arguments Ok {A} a.
Arguments Raise {A} e.

Definition NL : string := String (ascii_of_nat 10) "".

End Python.
Export Python.

(** ** Reading a SQL text back *)

Module Sql.

Definition is_digit (c : ascii) : bool :=
  let n := nat_of_ascii c in (48 <=? n)%nat && (n <=? 57)%nat.

Definition digit_val (c : ascii) : Z := Z.of_nat (nat_of_ascii c - 48).

(** The number spelled by the leading digits of [s], after [acc]. *)
Fixpoint read_digits (acc : Z) (s : string) : Z :=
  match s with
  | String c r => if is_digit c then read_digits (10 * acc + digit_val c) r else acc
  | EmptyString => acc
  end.

Definition starts_with_digit (s : string) : bool :=
  match s with String c _ => is_digit c | EmptyString => false end.

(** The positional placeholders [$n] of a SQL text, left to right. *)
Fixpoint placeholders (s : string) : list Z :=
  match s with
  | EmptyString => []
  | String c r =>
      if Ascii.eqb c "$" && starts_with_digit r
      then read_digits 0 r :: placeholders r
      else placeholders r
  end.

Definition is_space (c : ascii) : bool :=
  let n := nat_of_ascii c in
  (n =? 32)%nat || (n =? 10)%nat || (n =? 9)%nat || (n =? 13)%nat.

Definition flush (cur : string) (l : list string) : list string :=
  if String.eqb cur "" then l else cur :: l.

(** Words of a SQL text; a comma is a word of its own. *)
Fixpoint tokens (cur : string) (s : string) : list string :=
  match s with
  | EmptyString => flush cur []
  | String c r =>
      if is_space c then flush cur (tokens "" r)
      else if Ascii.eqb c "," then flush cur ("," :: tokens "" r)
      else tokens (cur +:+ String c "") r
  end.

Fixpoint skip_to_select (toks : list string) : list string :=
  match toks with
  | [] => []
  | t :: r => if String.eqb t "SELECT" then r else skip_to_select r
  end.

Definition emit (last : option string) (l : list string) : list string :=
  match last with Some t => t :: l | None => l end.

(** Output names of the items between SELECT and FROM: the last word of
    each comma-separated item (the column, or the alias after [as]). *)
Fixpoint item_names (last : option string) (toks : list string) : list string :=
  match toks with
  | [] => emit last []
  | t :: r =>
      if String.eqb t "FROM" then emit last []
      else if String.eqb t "," then emit last (item_names None r)
      else item_names (Some t) r
  end.

(** The column names of the rows a SELECT statement returns. *)
Definition select_names (query : string) : list string :=
  item_names None (skip_to_select (tokens "" query)).

End Sql.

(** ** database.py *)

Module Database.

(** One event per awaited call into the connector or the connection. *)
Inductive event : Type :=
  | EvConnectFailed
  | EvAcquire
  | EvFetch (query : string) (args : list pyval)
  | EvClose.

Definition trace := list event.

(** [dict(row)]: column name to value, in column order. *)
Definition row := list (string * pyval).

(** What the outside world answers.  Each oracle sees the events that
    came before its call. *)
Record driver : Type := {
  drv_connect : trace -> option exn;
  drv_fetch : trace -> string -> list pyval -> result (list row);
  drv_close : trace -> option exn
}.

(** The object held in [db_connection].  [hasattr(self, '_getconn')]
    holds once [initialize] has stored the connection function. *)
Record AlloyDBConnection : Type := {
  _getconn : option driver
}.

(** Computations that may raise and that extend the event trace. *)
Definition M (A : Type) : Type := trace -> result A * trace.

Definition ret {A} (a : A) : M A := fun tr => (Ok a, tr).

Definition raise {A} (e : exn) : M A := fun tr => (Raise e, tr).

Definition bind {A B} (m : M A) (k : A -> M B) : M B :=
  fun tr =>
    match m tr with
    | (Ok a, tr') => k a tr'
    | (Raise e, tr') => (Raise e, tr')
    end.

Notation "x <- m ;; k" := (bind m (fun x => k))
  (at level 100, m at next level, right associativity).

(** [try: m  except Exception as e: h e]. *)
Definition try_except {A} (m : M A) (h : exn -> M A) : M A :=
  fun tr =>
    match m tr with
    | (Ok a, tr') => (Ok a, tr')
    | (Raise e, tr') => if is_Exception e then h e tr' else (Raise e, tr')
    end.

(** [try: m  finally: f].  The pending outcome of [m] survives unless
    [f] itself raises. *)
Definition try_finally {A} (m : M A) (f : M unit) : M A :=
  fun tr =>
    match m tr with
    | (r, tr') =>
        match f tr' with
        | (Ok _, tr'') => (r, tr'')
        | (Raise e, tr'') => (Raise e, tr'')
        end
    end.

(** [await self._getconn()] *)
Definition getconn (d : driver) : M unit :=
  fun tr =>
    match drv_connect d tr with
    | Some e => (Raise e, tr ++ [EvConnectFailed])
    | None => (Ok tt, tr ++ [EvAcquire])
    end.

(** [await conn.fetch(query, *args)] *)
Definition conn_fetch (d : driver) (query : string) (args : list pyval) : M (list row) :=
  fun tr => (drv_fetch d tr query args, tr ++ [EvFetch query args]).

(** [await conn.close()] *)
Definition conn_close (d : driver) : M unit :=
  fun tr =>
    match drv_close d tr with
    | Some e => (Raise e, tr ++ [EvClose])
    | None => (Ok tt, tr ++ [EvClose])
    end.

(** [execute_query(self, query, params=None)] *)
Definition execute_query (self : AlloyDBConnection) (query : string)
    (params : option (list pyval)) : M (list row) :=
  match _getconn self with
  | None => raise (Exception "RuntimeError" "Database connection not initialized")
  | Some d =>
      _ <- getconn d ;;
      try_finally
        (try_except
           (match params with
            | Some (p :: ps) => conn_fetch d query (p :: ps)
            | _ => conn_fetch d query []
            end)
           (fun e => raise e))
        (conn_close d)
  end.

(** The three locals of [get_survey_data] that the filters update. *)
Record builder : Type := {
  base_query : string;
  params : list pyval;
  param_count : Z
}.

(** The initial value of [base_query]. *)
Definition select_surveys : string :=
  NL +:+
  "        SELECT " +:+ NL +:+
  "            survey_id," +:+ NL +:+
  "            respondent_id," +:+ NL +:+
  "            survey_date," +:+ NL +:+
  "            location," +:+ NL +:+
  "            respondent_type," +:+ NL +:+
  "            questions_responses," +:+ NL +:+
  "            metadata," +:+ NL +:+
  "            created_at," +:+ NL +:+
  "            updated_at" +:+ NL +:+
  "        FROM surveys" +:+ NL +:+
  "        WHERE 1=1" +:+ NL +:+
  "        ".

(** The body of one [if] of [get_survey_data]:
    [param_count += 1; base_query += f"<clause>${param_count}";
     params.append(value)]. *)
Definition add_filter (clause : string) (value : pyval) (b : builder) : builder :=
  let n := param_count b + 1 in
  {| base_query := base_query b +:+ clause +:+ "$" +:+ str_int n;
     params := params b ++ [value];
     param_count := n |}.

(** [get_survey_data] up to its last line: the text and the parameter
    list handed to [execute_query]. *)
Definition get_survey_data_query (survey_id : option Z)
    (location date_from date_to respondent_type : option string) (limit : Z)
    : string * list pyval :=
  let b := {| base_query := select_surveys; params := []; param_count := 0 |} in
  let b := if truthy (opt_int survey_id)
           then add_filter " AND survey_id = " (opt_int survey_id) b else b in
  let b := if truthy (opt_str location)
           then add_filter " AND location ILIKE "
                  (PyStr ("%" +:+ py_str (opt_str location) +:+ "%")) b
           else b in
  let b := if truthy (opt_str date_from)
           then add_filter " AND survey_date >= " (opt_str date_from) b else b in
  let b := if truthy (opt_str date_to)
           then add_filter " AND survey_date <= " (opt_str date_to) b else b in
  let b := if truthy (opt_str respondent_type)
           then add_filter " AND respondent_type = " (opt_str respondent_type) b else b in
  (base_query b +:+ " ORDER BY survey_date DESC LIMIT " +:+ str_int limit, params b).

Definition get_survey_data (self : AlloyDBConnection) (survey_id : option Z)
    (location date_from date_to respondent_type : option string) (limit : Z)
    : M (list row) :=
  let q := get_survey_data_query survey_id location date_from date_to
             respondent_type limit in
  execute_query self (fst q) (Some (snd q)).

Definition stats_query : string :=
  NL +:+
  "        SELECT " +:+ NL +:+
  "            COUNT(*) as total_surveys," +:+ NL +:+
  "            COUNT(DISTINCT location) as unique_locations," +:+ NL +:+
  "            COUNT(DISTINCT respondent_type) as respondent_types," +:+ NL +:+
  "            MIN(survey_date) as earliest_survey," +:+ NL +:+
  "            MAX(survey_date) as latest_survey," +:+ NL +:+
  "            COUNT(DISTINCT DATE(survey_date)) as survey_days" +:+ NL +:+
  "        FROM surveys" +:+ NL +:+
  "        ".

(** [result[0] if result else {}] *)
Definition get_survey_statistics (self : AlloyDBConnection) : M row :=
  result <- execute_query self stats_query None ;;
  ret (match result with r :: _ => r | [] => [] end).

(** [row[key]], a [KeyError] when the key is missing. *)
Definition getitem (r : row) (key : string) : M pyval :=
  match List.find (fun kv => String.eqb (fst kv) key) r with
  | Some kv => ret (snd kv)
  | None => raise (Exception "KeyError" ("'" +:+ key +:+ "'"))
  end.

(** [[row[key] for row in result]] *)
Fixpoint column (key : string) (rows : list row) : M (list pyval) :=
  match rows with
  | [] => ret []
  | r :: rest =>
      v <- getitem r key ;;
      vs <- column key rest ;;
      ret (v :: vs)
  end.

Definition get_locations (self : AlloyDBConnection) : M (list pyval) :=
  result <- execute_query self
    "SELECT DISTINCT location FROM surveys WHERE location IS NOT NULL ORDER BY location"
    None ;;
  column "location" result.

Definition get_respondent_types (self : AlloyDBConnection) : M (list pyval) :=
  result <- execute_query self
    "SELECT DISTINCT respondent_type FROM surveys WHERE respondent_type IS NOT NULL ORDER BY respondent_type"
    None ;;
  column "respondent_type" result.

End Database.

(** ** server.py *)

Module Server.
Import Database.

(** A value handed to [json.dumps]. *)
#[warnings="-register-all"]
Inductive json : Type :=
  | JVal (v : pyval)
  | JList (items : list json)
  | JObj (fields : list (string * json)).

Definition row_json (r : row) : json :=
  JObj (map (fun kv => (fst kv, JVal (snd kv))) r).

(** The [text] of a [TextContent]: a literal or formatted message, or
    [json.dumps(j, indent=2, default=str)]. *)
Inductive text_body : Type :=
  | Plain (s : string)
  | JsonDumps (j : json).

Record TextContent : Type := {
  type : string;
  text : text_body
}.

Record CallToolResult : Type := {
  content : list TextContent
}.

(** What the [contents] of a [ReadResourceResult] may hold. *)
Inductive ResourceContents : Type :=
  | TextResourceContents (uri : string) (mimeType : option string) (text : string)
  | BlobResourceContents (uri : string) (mimeType : option string) (blob : string).

Record ReadResourceResult : Type := {
  contents : list ResourceContents
}.

Definition tool_text (body : text_body) : CallToolResult :=
  {| content := [ {| type := "text"; text := body |} ] |}.

(** [class SurveyQueryParams(BaseModel)] *)
Record SurveyQueryParams : Type := {
  survey_id : option Z;
  location : option string;
  date_from : option string;
  date_to : option string;
  respondent_type : option string;
  limit : Z
}.

(** The three locals of the search branch of [call_tool]. *)
Record search_builder : Type := {
  search_conditions : list string;
  search_params : list pyval;
  search_param_count : Z
}.

(** The body of one [if] of the search branch:
    [param_count += 1;
     search_conditions.append(f"questions_responses::text ILIKE ${param_count}");
     params.append(f"%{value}%")]. *)
Definition add_condition (value : pyval) (b : search_builder) : search_builder :=
  let n := search_param_count b + 1 in
  {| search_conditions :=
       search_conditions b ++ ["questions_responses::text ILIKE $" +:+ str_int n];
     search_params := search_params b ++ [PyStr ("%" +:+ py_str value +:+ "%")];
     search_param_count := n |}.

Definition search_build (question_text response_text : pyval) : search_builder :=
  let b := {| search_conditions := []; search_params := []; search_param_count := 0 |} in
  let b := if truthy question_text then add_condition question_text b else b in
  let b := if truthy response_text then add_condition response_text b else b in
  b.

(** The f-string assigned to [query] in the search branch. *)
Definition search_query (conditions : list string) (limit : pyval) : string :=
  NL +:+
  "            SELECT " +:+ NL +:+
  "                survey_id," +:+ NL +:+
  "                respondent_id," +:+ NL +:+
  "                survey_date," +:+ NL +:+
  "                location," +:+ NL +:+
  "                respondent_type," +:+ NL +:+
  "                questions_responses," +:+ NL +:+
  "                created_at" +:+ NL +:+
  "            FROM surveys" +:+ NL +:+
  "            WHERE " +:+ String.concat " AND " conditions +:+ NL +:+
  "            ORDER BY survey_date DESC" +:+ NL +:+
  "            LIMIT " +:+ py_str limit +:+ NL +:+
  "            ".

Definition lift {A} (r : result A) : M A := fun tr => (r, tr).

(** [arguments.get(key)] and [arguments.get(key, default)] *)
Definition dict_get (arguments : gmap string pyval) (key : string) : pyval :=
  default PyNone (arguments !! key).

Definition dict_get_default (arguments : gmap string pyval) (key : string)
    (dflt : pyval) : pyval :=
  default dflt (arguments !! key).

Section Pydantic.

(** Pydantic's lax reading of a string as an integer, and the text of
    the [ValidationError] it raises for a rejected argument mapping. *)
Variable str_as_int : string -> option Z.
Variable validation_message : gmap string pyval -> string.

(** An [int] field in lax mode. *)
Definition lax_int (v : pyval) : option Z :=
  match v with
  | PyInt z => Some z
  | PyBool b => Some (Z.b2z b)
  | PyStr s => str_as_int s
  | PyNone => None
  end.

(** A [str] field. *)
Definition lax_str (v : pyval) : option string :=
  match v with
  | PyStr s => Some s
  | _ => None
  end.

(** An [Optional[T] = None] field: [None] when the key is missing or
    null; [Some None] is returned nowhere, the outer [None] is a
    validation failure. *)
Definition optional_field {A} (validate : pyval -> option A)
    (arg : option pyval) : option (option A) :=
  match arg with
  | None => Some None
  | Some PyNone => Some None
  | Some v => option_map Some (validate v)
  end.

(** A [T = dflt] field. *)
Definition default_field {A} (validate : pyval -> option A) (dflt : A)
    (arg : option pyval) : option A :=
  match arg with
  | None => Some dflt
  | Some v => validate v
  end.

(** The constructor call of [SurveyQueryParams] on the unpacked
    argument mapping. *)
Definition SurveyQueryParams_init (arguments : gmap string pyval)
    : result SurveyQueryParams :=
  match optional_field lax_int (arguments !! "survey_id"),
        optional_field lax_str (arguments !! "location"),
        optional_field lax_str (arguments !! "date_from"),
        optional_field lax_str (arguments !! "date_to"),
        optional_field lax_str (arguments !! "respondent_type"),
        default_field lax_int 100 (arguments !! "limit") with
  | Some i, Some l, Some f, Some t, Some r, Some n =>
      Ok {| survey_id := i; location := l; date_from := f; date_to := t;
            respondent_type := r; limit := n |}
  | _, _, _, _, _, _ =>
      Raise (Exception "ValidationError" (validation_message arguments))
  end.

Definition fetch_survey_data (db : AlloyDBConnection)
    (arguments : gmap string pyval) : M CallToolResult :=
  params <- lift (SurveyQueryParams_init arguments) ;;
  surveys <- get_survey_data db (survey_id params) (location params)
               (date_from params) (date_to params) (respondent_type params)
               (limit params) ;;
  ret (tool_text (JsonDumps (JObj
    [("count", JVal (PyInt (Z.of_nat (length surveys))));
     ("surveys", JList (map row_json surveys))]))).

Definition get_survey_summary (db : AlloyDBConnection) : M CallToolResult :=
  stats <- get_survey_statistics db ;;
  locations <- get_locations db ;;
  respondent_types <- get_respondent_types db ;;
  ret (tool_text (JsonDumps (JObj
    [("statistics", row_json stats);
     ("available_locations", JList (map JVal locations));
     ("available_respondent_types", JList (map JVal respondent_types))]))).

Definition search_surveys_by_question (db : AlloyDBConnection)
    (arguments : gmap string pyval) : M CallToolResult :=
  let question_text := dict_get arguments "question_text" in
  let response_text := dict_get arguments "response_text" in
  let limit := dict_get_default arguments "limit" (PyInt 50) in
  let b := search_build question_text response_text in
  match search_conditions b with
  | [] =>
      ret (tool_text (Plain
        "Error: At least one search parameter (question_text or response_text) is required"))
  | _ :: _ =>
      let query := search_query (search_conditions b) limit in
      results <- execute_query db query (Some (search_params b)) ;;
      ret (tool_text (JsonDumps (JObj
        [("count", JVal (PyInt (Z.of_nat (length results))));
         ("matching_surveys", JList (map row_json results))])))
  end.

(** The statements inside the [try] of [call_tool]. *)
Definition call_tool_body (db : AlloyDBConnection) (name : string)
    (arguments : gmap string pyval) : M CallToolResult :=
  if String.eqb name "fetch_survey_data" then
    fetch_survey_data db arguments
  else if String.eqb name "get_survey_summary" then
    get_survey_summary db
  else if String.eqb name "search_surveys_by_question" then
    search_surveys_by_question db arguments
  else
    ret (tool_text (Plain ("Error: Unknown tool '" +:+ name +:+ "'"))).

(** [call_tool(name, arguments)], with the global [db_connection] as an
    argument. *)
Definition call_tool (db_connection : option AlloyDBConnection) (name : string)
    (arguments : gmap string pyval) : M CallToolResult :=
  match db_connection with
  | None => ret (tool_text (Plain "Error: Database connection not initialized"))
  | Some db =>
      try_except (call_tool_body db name arguments)
        (fun e => ret (tool_text (Plain ("Error: " +:+ exn_str e))))
  end.

End Pydantic.

Section ResourceResult.

(** The text of the [ValidationError] that [ReadResourceResult] raises
    for contents it rejects. *)
Variable contents_error : list TextContent -> string.

(** [ReadResourceResult(contents=items)] for a list of [TextContent].
    The field is declared as a list of [TextResourceContents] or
    [BlobResourceContents]; a [TextContent] is an instance of neither
    (it has a [type] and no [uri]), so every item is rejected and only
    the empty list passes. *)
Definition ReadResourceResult_init (items : list TextContent)
    : result ReadResourceResult :=
  match items with
  | [] => Ok {| contents := [] |}
  | _ :: _ => Raise (Exception "ValidationError" (contents_error items))
  end.

(** The statements inside the [try] of [read_resource]. *)
Definition read_resource_body (db : AlloyDBConnection) (uri : string)
    : M ReadResourceResult :=
  if String.eqb uri "alloydb://surveys/statistics" then
    stats <- get_survey_statistics db ;;
    lift (ReadResourceResult_init
      [ {| type := "text"; text := JsonDumps (row_json stats) |} ])
  else if String.eqb uri "alloydb://surveys/locations" then
    locations <- get_locations db ;;
    lift (ReadResourceResult_init
      [ {| type := "text";
           text := JsonDumps (JObj [("locations", JList (map JVal locations))]) |} ])
  else if String.eqb uri "alloydb://surveys/respondent-types" then
    types <- get_respondent_types db ;;
    lift (ReadResourceResult_init
      [ {| type := "text";
           text := JsonDumps (JObj [("respondent_types", JList (map JVal types))]) |} ])
  else
    raise (Exception "ValueError" ("Unknown resource: " +:+ uri)).

(** [read_resource(uri)], with the global [db_connection] as an
    argument.  The handler builds its result with the same
    constructor. *)
Definition read_resource (db_connection : option AlloyDBConnection) (uri : string)
    : M ReadResourceResult :=
  match db_connection with
  | None => raise (Exception "RuntimeError" "Database connection not initialized")
  | Some db =>
      try_except (read_resource_body db uri)
        (fun e =>
           lift (ReadResourceResult_init
             [ {| type := "text"; text := Plain ("Error: " +:+ exn_str e) |} ]))
  end.

End ResourceResult.

End Server.

Import Sql Database Server.

(** ** Vocabulary of the statements *)

(** The builder as the specification words it: one fixed pass over the
    declared list of filters.  Each entry is the predicate text up to
    its placeholder, the caller's value, and the value that is bound. *)
Definition declared_filters (survey_id : option Z)
    (location date_from date_to respondent_type : option string)
    : list (string * pyval * pyval) :=
  [ (" AND survey_id = ", opt_int survey_id, opt_int survey_id);
    (" AND location ILIKE ", opt_str location,
       PyStr ("%" +:+ py_str (opt_str location) +:+ "%"));
    (" AND survey_date >= ", opt_str date_from, opt_str date_from);
    (" AND survey_date <= ", opt_str date_to, opt_str date_to);
    (" AND respondent_type = ", opt_str respondent_type, opt_str respondent_type) ].

(** A value that passes the truth test of Python, spelled out: [True],
    an integer other than zero, a string other than the empty one. *)
Definition takes_effect (v : pyval) : bool :=
  match v with
  | PyBool true => true
  | PyInt (Zpos _) => true
  | PyInt (Zneg _) => true
  | PyStr (String _ _) => true
  | _ => false
  end.

(** A field that the caller supplied, whatever the value. *)
Definition supplied {A : Type} (o : option A) : bool :=
  match o with Some _ => true | None => false end.

(** The number of the five optional fields that are supplied. *)
Definition supplied_count (survey_id : option Z)
    (location date_from date_to respondent_type : option string) : nat :=
  length (List.filter (fun b : bool => b)
    [supplied survey_id; supplied location; supplied date_from;
     supplied date_to; supplied respondent_type]).

(** The filters that take effect: those supplied with a value other
    than zero and other than the empty string. *)
Definition effective_filters (survey_id : option Z)
    (location date_from date_to respondent_type : option string)
    : list (string * pyval * pyval) :=
  List.filter (fun f => takes_effect (snd (fst f)))
    (declared_filters survey_id location date_from date_to respondent_type).

(** The [i]-th appended fragment (counting from 0) carries [$(i+1)]. *)
Definition fragment (i : nat) (f : string * pyval * pyval) : string :=
  fst (fst f) +:+ "$" +:+ str_int (Z.of_nat (S i)).

Definition built_query_spec (survey_id : option Z)
    (location date_from date_to respondent_type : option string) (limit : Z)
    : string * list pyval :=
  let present :=
    effective_filters survey_id location date_from date_to respondent_type in
  (select_surveys +:+ String.concat "" (imap fragment present)
     +:+ " ORDER BY survey_date DESC LIMIT " +:+ str_int limit,
   map snd present).

(** A text between wildcard markers, [f"%{v}%"]. *)
Definition wildcard (v : pyval) : pyval := PyStr ("%" +:+ py_str v +:+ "%").

(** A text ends open when its last character is a [$] or a digit, so
    that a placeholder could run on into whatever is appended. *)
Fixpoint ends_open (s : string) : bool :=
  match s with
  | EmptyString => false
  | String c EmptyString => Ascii.eqb c "$" || is_digit c
  | String _ r => ends_open r
  end.

Fixpoint no_dollar (s : string) : bool :=
  match s with
  | EmptyString => true
  | String c r => negb (Ascii.eqb c "$") && no_dollar r
  end.

(** The arguments that reach [conn.fetch]. *)
Definition fetch_args (params : option (list pyval)) : list pyval :=
  match params with Some (p :: ps) => p :: ps | _ => [] end.

(** Every normal result of [m] satisfies [P]. *)
Definition ok_sat {A} (P : A -> Prop) (m : M A) : Prop :=
  forall tr, match fst (m tr) with Ok a => P a | Raise _ => True end.

(** [m] returns normally, with a result that satisfies [P], and leaves
    the trace alone. *)
Definition returns {A} (P : A -> Prop) (m : M A) : Prop :=
  forall tr, exists a, m tr = (Ok a, tr) /\ P a.

(** What may leave a handler that recovers: a result that satisfies [P],
    or an exception that is not an [Exception] (a cancellation). *)
Definition recovered {A} (P : A -> Prop) (r : result A) : Prop :=
  match r with
  | Ok a => P a
  | Raise e => is_Exception e = false
  end.



(** The search statement around a WHERE clause and a limit, as the
    f-string of the search branch lays it out. *)
Definition search_text (where_clause limit : string) : string :=
  NL +:+
  "            SELECT " +:+ NL +:+
  "                survey_id," +:+ NL +:+
  "                respondent_id," +:+ NL +:+
  "                survey_date," +:+ NL +:+
  "                location," +:+ NL +:+
  "                respondent_type," +:+ NL +:+
  "                questions_responses," +:+ NL +:+
  "                created_at" +:+ NL +:+
  "            FROM surveys" +:+ NL +:+
  "            WHERE " +:+ where_clause +:+ NL +:+
  "            ORDER BY survey_date DESC" +:+ NL +:+
  "            LIMIT " +:+ limit +:+ NL +:+
  "            ".

(** The answer of a search that ran. *)
Definition search_answer (results : list row) : CallToolResult :=
  tool_text (JsonDumps (JObj
    [("count", JVal (PyInt (Z.of_nat (length results))));
     ("matching_surveys", JList (map row_json results))])).

(** The search branch builds the search statement around
    [where_clause], binds [params], and executes the two. *)
Definition search_runs (db : AlloyDBConnection) (arguments : gmap string pyval)
    (where_clause : string) (params : list pyval) : Prop :=
  let b := search_build (dict_get arguments "question_text")
             (dict_get arguments "response_text") in
  let limit := dict_get_default arguments "limit" (PyInt 50) in
  search_query (search_conditions b) limit
  = search_text where_clause (py_str limit)
  /\ search_params b = params
  /\ search_surveys_by_question db arguments
     = (results <- execute_query db (search_text where_clause (py_str limit))
                     (Some params) ;;
        ret (search_answer results)).

(** The text of a validation error, for closed instances. *)
Definition plain_contents_error : list TextContent -> string :=
  fun _ => "validation error".

(** The driver answers a SELECT with rows keyed by its select list. *)
Definition faithful (d : driver) : Prop :=
  forall tr query args rows,
    drv_fetch d tr query args = Ok rows ->
    Forall (fun r : row => map fst r = select_names query) rows.

(** The attributes of a Survey Record, as [get_survey_data] selects them. *)
Definition survey_record_columns : list string :=
  ["survey_id"; "respondent_id"; "survey_date"; "location"; "respondent_type";
   "questions_responses"; "metadata"; "created_at"; "updated_at"].

(** The columns the search branch selects. *)
Definition search_columns : list string :=
  ["survey_id"; "respondent_id"; "survey_date"; "location"; "respondent_type";
   "questions_responses"; "created_at"].

Definition json_keys (j : json) : list string :=
  match j with
  | JObj fields => map fst fields
  | _ => []
  end.

(** The [matching_surveys] list of a search response. *)
Definition matching_surveys (r : CallToolResult) : option (list json) :=
  match content r with
  | [ {| text := JsonDumps (JObj [(_, _); (key, JList items)]) |} ] =>
      if String.eqb key "matching_surveys" then Some items else None
  | _ => None
  end.

(** *** Sample collaborators for the closed instances *)

(** A driver that connects, answers every fetch with [outcome], and
    closes. *)
Definition answering (outcome : result (list row)) : driver :=
  {| drv_connect := fun _ => None;
     drv_fetch := fun _ _ _ => outcome;
     drv_close := fun _ => None |}.

(** A driver whose connector fails with [e]. *)
Definition unreachable (e : exn) : driver :=
  {| drv_connect := fun _ => Some e;
     drv_fetch := fun _ _ _ => Ok [];
     drv_close := fun _ => None |}.

(** A driver that answers every query with one row of nulls. *)
Definition one_null_row : driver :=
  {| drv_connect := fun _ => None;
     drv_fetch := fun _ query _ =>
       Ok [map (fun c => (c, PyNone)) (select_names query)];
     drv_close := fun _ => None |}.

Definition sample_db : AlloyDBConnection :=
  {| _getconn := Some (answering (Ok [])) |}.

Definition no_str_as_int : string -> option Z := fun _ => None.

Definition plain_validation_message : gmap string pyval -> string :=
  fun _ => "validation error".

(** ** Start-up: the constructor, [initialize], [close] and [main] *)

Module Startup.

(** [os.getenv(key)] and [os.getenv(key, default)] over the process
    environment. *)
Definition getenv (env : gmap string string) (key : string) : option string :=
  env !! key.

Definition getenv_default (env : gmap string string) (key dflt : string) : string :=
  default dflt (env !! key).

(** The attributes that [AlloyDBConnection.__init__] assigns, with the
    [_getconn] attribute that [initialize] adds kept in [handle].  The
    attribute [pool] is assigned [None] and never read. *)
Record AlloyDBObject : Type := {
  connector : option driver;
  project_id : option string;
  region : option string;
  cluster_id : option string;
  instance_id : option string;
  database : string;
  user : string;
  password : option string;
  handle : AlloyDBConnection
}.

(** [AlloyDBConnection()] *)
Definition AlloyDBConnection_init (env : gmap string string) : result AlloyDBObject :=
  let self :=
    {| connector := None;
       project_id := getenv env "ALLOYDB_PROJECT_ID";
       region := getenv env "ALLOYDB_REGION";
       cluster_id := getenv env "ALLOYDB_CLUSTER_ID";
       instance_id := getenv env "ALLOYDB_INSTANCE_ID";
       database := getenv_default env "ALLOYDB_DATABASE" "postgres";
       user := getenv_default env "ALLOYDB_USER" "postgres";
       password := getenv env "ALLOYDB_PASSWORD";
       handle := {| _getconn := None |} |} in
  if forallb truthy [opt_str (project_id self); opt_str (region self);
                     opt_str (cluster_id self); opt_str (instance_id self)]
  then Ok self
  else Raise (Exception "ValueError"
                "Missing required Alloy DB configuration parameters").

(** The f-string of [initialize]:
    [f"{self.project_id}:{self.region}:{self.cluster_id}:{self.instance_id}"]. *)
Definition instance_connection_name (self : AlloyDBObject) : string :=
  py_str (opt_str (project_id self)) +:+ ":" +:+
  py_str (opt_str (region self)) +:+ ":" +:+
  py_str (opt_str (cluster_id self)) +:+ ":" +:+
  py_str (opt_str (instance_id self)).

(** The arguments of [connect_async] in the closure [getconn]. *)
Record connect_request : Type := {
  req_instance : string;
  req_driver : string;
  req_user : string;
  req_password : option string;
  req_db : string
}.

Definition getconn_request (self : AlloyDBObject) : connect_request :=
  {| req_instance := instance_connection_name self;
     req_driver := "asyncpg";
     req_user := user self;
     req_password := password self;
     req_db := database self |}.

(** [initialize(self)]; [new_connector] is what [Connector()] does.  The
    handler logs and re-raises. *)
Definition initialize (new_connector : result driver) (self : AlloyDBObject)
    : result unit * AlloyDBObject :=
  match new_connector with
  | Ok d =>
      (Ok tt,
       {| connector := Some d;
          project_id := project_id self;
          region := region self;
          cluster_id := cluster_id self;
          instance_id := instance_id self;
          database := database self;
          user := user self;
          password := password self;
          handle := {| _getconn := Some d |} |})
  | Raise e => (Raise e, self)
  end.

(** What [main] does to the outside, in order. *)
Inductive lifecycle_event : Type :=
  | LcConnector
  | LcServe (db_connection : option AlloyDBConnection)
  | LcClose.

(** [close(self)]; [close_async] is what the connector's [close_async]
    does. *)
Definition close (close_async : option exn) (self : AlloyDBObject)
    : result unit * list lifecycle_event :=
  match connector self with
  | Some _ =>
      (match close_async with Some e => Raise e | None => Ok tt end, [LcClose])
  | None => (Ok tt, [])
  end.

(** What [main] meets: the environment, the connector's constructor,
    the run of the stdio server over the handlers (which read the global
    [db_connection]), and the connector's [close_async]. *)
Record world : Type := {
  env : gmap string string;
  new_connector : result driver;
  serve : option AlloyDBConnection -> result unit;
  close_async : option exn
}.

(** The [try] block of [main]: outcome, value of the global
    [db_connection] afterwards, events. *)
Definition main_body (w : world) (db_connection : option AlloyDBObject)
    : result unit * option AlloyDBObject * list lifecycle_event :=
  match AlloyDBConnection_init (env w) with
  | Raise e => (Raise e, db_connection, [])
  | Ok self =>
      match initialize (new_connector w) self with
      | (Raise e, self') => (Raise e, Some self', [LcConnector])
      | (Ok _, self') =>
          (serve w (Some (handle self')), Some self',
           [LcConnector; LcServe (Some (handle self'))])
      end
  end.

(** [main()], started with the global [db_connection] as given.  The
    [except] clause logs and re-raises; the [finally] clause closes the
    connection when the global is set. *)
Definition main (w : world) (db_connection : option AlloyDBObject)
    : result unit * option AlloyDBObject * list lifecycle_event :=
  match main_body w db_connection with
  | (r, Some self, evs) =>
      match close (close_async w) self with
      | (Raise e, closing) => (Raise e, Some self, evs ++ closing)
      | (Ok _, closing) => (r, Some self, evs ++ closing)
      end
  | (r, None, evs) => (r, None, evs)
  end.

End Startup.

(** ** config.py *)

Module Config.

Record AlloyDBConfig : Type := {
  project_id : string;
  region : string;
  cluster_id : string;
  instance_id : string;
  database : string;
  user : string;
  password : option string
}.

(** [AlloyDBConfig.from_env()].  The four required fields are [str]:
    an unset variable ([None]) is rejected, any string is accepted.
    [validation_message] is the text of pydantic's error. *)
Definition from_env (validation_message : gmap string string -> string)
    (env : gmap string string) : result AlloyDBConfig :=
  match Startup.getenv env "ALLOYDB_PROJECT_ID",
        Startup.getenv env "ALLOYDB_REGION",
        Startup.getenv env "ALLOYDB_CLUSTER_ID",
        Startup.getenv env "ALLOYDB_INSTANCE_ID" with
  | Some p, Some r, Some c, Some i =>
      Ok {| project_id := p; region := r; cluster_id := c; instance_id := i;
            database := Startup.getenv_default env "ALLOYDB_DATABASE" "postgres";
            user := Startup.getenv_default env "ALLOYDB_USER" "postgres";
            password := Startup.getenv env "ALLOYDB_PASSWORD" |}
  | _, _, _, _ => Raise (Exception "ValidationError" (validation_message env))
  end.

(** The property [instance_connection_name]. *)
Definition instance_connection_name (self : AlloyDBConfig) : string :=
  project_id self +:+ ":" +:+ region self +:+ ":" +:+
  cluster_id self +:+ ":" +:+ instance_id self.

Record MCPServerConfig : Type := {
  name : string;
  version : string;
  log_level : string
}.

(** [MCPServerConfig.from_env()] *)
Definition server_from_env (env : gmap string string) : MCPServerConfig :=
  {| name := Startup.getenv_default env "MCP_SERVER_NAME" "alloydb-survey-server";
     version := Startup.getenv_default env "MCP_SERVER_VERSION" "1.0.0";
     log_level := Startup.getenv_default env "LOG_LEVEL" "INFO" |}.

End Config.

(** ** test_server.py: the check of the environment in [main] *)

Module TestServer.

Definition required_vars : list string :=
  ["ALLOYDB_PROJECT_ID"; "ALLOYDB_REGION"; "ALLOYDB_CLUSTER_ID";
   "ALLOYDB_INSTANCE_ID"].

(** [[var for var in required_vars if not os.getenv(var)]] *)
Definition missing_vars (env : gmap string string) : list string :=
  List.filter (fun var => negb (truthy (opt_str (Startup.getenv env var))))
    required_vars.

End TestServer.

(** ** server.py: the two catalogs *)

Module Catalog.

Record Resource : Type := {
  uri : string;
  resource_name : string;
  resource_description : string;
  mimeType : string
}.

(** [list_resources()] *)
Definition list_resources : list Resource :=
  [ {| uri := "alloydb://surveys/statistics";
       resource_name := "Survey Statistics";
       resource_description := "Overall statistics about survey data";
       mimeType := "application/json" |};
    {| uri := "alloydb://surveys/locations";
       resource_name := "Survey Locations";
       resource_description := "List of all unique survey locations";
       mimeType := "application/json" |};
    {| uri := "alloydb://surveys/respondent-types";
       resource_name := "Respondent Types";
       resource_description := "List of all unique respondent types";
       mimeType := "application/json" |} ].

(** One entry of the [properties] of an input schema. *)
Record property : Type := {
  prop_type : string;
  prop_description : string;
  prop_default : option pyval
}.

(** An [inputSchema]: its [type], [properties] and
    [additionalProperties]. *)
Record schema : Type := {
  schema_type : string;
  properties : list (string * property);
  additionalProperties : bool
}.

Record Tool : Type := {
  tool_name : string;
  tool_description : string;
  inputSchema : schema
}.

(** [list_tools()] *)
Definition list_tools : list Tool :=
  [ {| tool_name := "fetch_survey_data";
       tool_description := "Fetch survey data from Alloy DB with optional filters";
       inputSchema :=
         {| schema_type := "object";
            properties :=
              [ ("survey_id",
                 {| prop_type := "integer";
                    prop_description := "Specific survey ID to fetch";
                    prop_default := None |});
                ("location",
                 {| prop_type := "string";
                    prop_description := "Filter by location (partial match supported)";
                    prop_default := None |});
                ("date_from",
                 {| prop_type := "string";
                    prop_description := "Start date filter (YYYY-MM-DD format)";
                    prop_default := None |});
                ("date_to",
                 {| prop_type := "string";
                    prop_description := "End date filter (YYYY-MM-DD format)";
                    prop_default := None |});
                ("respondent_type",
                 {| prop_type := "string";
                    prop_description := "Filter by respondent type";
                    prop_default := None |});
                ("limit",
                 {| prop_type := "integer";
                    prop_description := "Maximum number of records to return (default: 100)";
                    prop_default := Some (PyInt 100) |}) ];
            additionalProperties := false |} |};
    {| tool_name := "get_survey_summary";
       tool_description := "Get a summary of survey data including counts and statistics";
       inputSchema :=
         {| schema_type := "object";
            properties := [];
            additionalProperties := false |} |};
    {| tool_name := "search_surveys_by_question";
       tool_description := "Search surveys that contain specific questions or responses";
       inputSchema :=
         {| schema_type := "object";
            properties :=
              [ ("question_text",
                 {| prop_type := "string";
                    prop_description := "Text to search for in survey questions";
                    prop_default := None |});
                ("response_text",
                 {| prop_type := "string";
                    prop_description := "Text to search for in survey responses";
                    prop_default := None |});
                ("limit",
                 {| prop_type := "integer";
                    prop_description := "Maximum number of records to return (default: 50)";
                    prop_default := Some (PyInt 50) |}) ];
            additionalProperties := false |} |} ].

End Catalog.

(** ** Vocabulary of the further statements *)

(** The number of round trips of a well-bracketed sequence of events: a
    failed connect, or acquire, fetch, close. *)
Fixpoint round_trips (evs : list event) : option nat :=
  match evs with
  | [] => Some 0%nat
  | EvConnectFailed :: r => option_map S (round_trips r)
  | EvAcquire :: EvFetch _ _ :: EvClose :: r => option_map S (round_trips r)
  | _ => None
  end.

(** [evs] is a run over the queries [plan]: they are executed in order,
    each over a connection of its own that is closed before the next is
    opened; the run may stop after any of them, and stops at a connect
    that fails. *)
Fixpoint runs (plan : list (string * list pyval)) (evs : list event) : Prop :=
  evs = [] \/
  match plan with
  | [] => False
  | (query, args) :: rest =>
      evs = [EvConnectFailed]
      \/ exists evs', evs = [EvAcquire; EvFetch query args; EvClose] ++ evs'
                      /\ runs rest evs'
  end.

(** The events of a plan that is executed to its end. *)
Definition complete (plan : list (string * list pyval)) : list event :=
  flat_map (fun q => [EvAcquire; EvFetch (fst q) (snd q); EvClose]) plan.

(** [m] extends the trace by events that, with the outcome, satisfy [Q]. *)
Definition emits {A} (Q : result A -> list event -> Prop) (m : M A) : Prop :=
  forall tr, exists evs, snd (m tr) = tr ++ evs /\ Q (fst (m tr)) evs.

(** The events are a run over [plan], and the whole of it when the
    outcome is a normal return. *)
Definition follows {A} (plan : list (string * list pyval)) (r : result A)
    (evs : list event) : Prop :=
  runs plan evs /\ match r with Ok _ => evs = complete plan | Raise _ => True end.

Section Plans.

Variable str_as_int : string -> option Z.
Variable validation_message : gmap string pyval -> string.

(** The queries an operation hands to [execute_query], in order. *)
Definition query_plan (name : string) (arguments : gmap string pyval)
    : list (string * list pyval) :=
  if String.eqb name "fetch_survey_data" then
    match SurveyQueryParams_init str_as_int validation_message arguments with
    | Ok p => [get_survey_data_query (survey_id p) (location p) (date_from p)
                 (date_to p) (respondent_type p) (limit p)]
    | Raise _ => []
    end
  else if String.eqb name "get_survey_summary" then
    [(stats_query, []);
     ("SELECT DISTINCT location FROM surveys WHERE location IS NOT NULL ORDER BY location", []);
     ("SELECT DISTINCT respondent_type FROM surveys WHERE respondent_type IS NOT NULL ORDER BY respondent_type", [])]
  else if String.eqb name "search_surveys_by_question" then
    let b := search_build (dict_get arguments "question_text")
               (dict_get arguments "response_text") in
    match search_conditions b with
    | [] => []
    | _ :: _ =>
        [(search_query (search_conditions b)
            (dict_get_default arguments "limit" (PyInt 50)),
          search_params b)]
    end
  else [].

End Plans.

Definition resource_plan (uri : string) : list (string * list pyval) :=
  if String.eqb uri "alloydb://surveys/statistics" then [(stats_query, [])]
  else if String.eqb uri "alloydb://surveys/locations" then
    [("SELECT DISTINCT location FROM surveys WHERE location IS NOT NULL ORDER BY location", [])]
  else if String.eqb uri "alloydb://surveys/respondent-types" then
    [("SELECT DISTINCT respondent_type FROM surveys WHERE respondent_type IS NOT NULL ORDER BY respondent_type", [])]
  else [].

(** The text of a query carries exactly the placeholders [$1] ... [$n]
    for its [n] arguments. *)
Definition well_bound (q : string * list pyval) : Prop :=
  placeholders (fst q) = map Z.of_nat (seq 1 (length (snd q))).

Definition fetch_well_bound (ev : event) : Prop :=
  match ev with
  | EvFetch query args => well_bound (query, args)
  | _ => True
  end.

(** The search query up to its limit, and after it. *)
Definition search_head (conditions : list string) : string :=
  NL +:+
  "            SELECT " +:+ NL +:+
  "                survey_id," +:+ NL +:+
  "                respondent_id," +:+ NL +:+
  "                survey_date," +:+ NL +:+
  "                location," +:+ NL +:+
  "                respondent_type," +:+ NL +:+
  "                questions_responses," +:+ NL +:+
  "                created_at" +:+ NL +:+
  "            FROM surveys" +:+ NL +:+
  "            WHERE " +:+ String.concat " AND " conditions +:+ NL +:+
  "            ORDER BY survey_date DESC" +:+ NL +:+
  "            LIMIT ".

Definition search_tail : string := NL +:+ "            ".

(** When a response is an object of a [count] and a list, the count is
    the length of the list. *)
Definition count_is_length (r : CallToolResult) : Prop :=
  forall n key items,
    content r =
      [ {| type := "text";
           text := JsonDumps (JObj [("count", JVal (PyInt n)); (key, JList items)]) |} ] ->
    n = Z.of_nat (length items).

(** The response of [get_survey_summary] when all three queries
    succeed. *)
Definition summary_response (stats : row) (locations types : list pyval)
    : CallToolResult :=
  tool_text (JsonDumps (JObj
    [("statistics", row_json stats);
     ("available_locations", JList (map JVal locations));
     ("available_respondent_types", JList (map JVal types))])).

(** The argument mapping that spells out a validated parameter set:
    a key for every field that is set, and the limit. *)
Definition set_opt (key : string) (v : option pyval) (m : gmap string pyval)
    : gmap string pyval :=
  match v with
  | Some x => <[ key := x ]> m
  | None => m
  end.

Definition to_arguments (p : SurveyQueryParams) : gmap string pyval :=
  set_opt "survey_id" (option_map PyInt (survey_id p))
    (set_opt "location" (option_map PyStr (location p))
       (set_opt "date_from" (option_map PyStr (date_from p))
          (set_opt "date_to" (option_map PyStr (date_to p))
             (set_opt "respondent_type" (option_map PyStr (respondent_type p))
                (<[ "limit" := PyInt (limit p) ]> ∅))))).

(** The property names a listed tool advertises, and the default it
    advertises for one of them. *)
Definition advertised_keys (t : Catalog.Tool) : list string :=
  map fst (Catalog.properties (Catalog.inputSchema t)).

Definition advertised_default (name key : string) : option pyval :=
  match List.find (fun t => String.eqb (Catalog.tool_name t) name)
          Catalog.list_tools with
  | Some t =>
      match List.find (fun kp => String.eqb (fst kp) key)
              (Catalog.properties (Catalog.inputSchema t)) with
      | Some kp => Catalog.prop_default (snd kp)
      | None => None
      end
  | None => None
  end.

Definition listed_tool (name : string) : bool :=
  existsb (String.eqb name) (map Catalog.tool_name Catalog.list_tools).

Definition listed_resource (uri : string) : bool :=
  existsb (String.eqb uri) (map Catalog.uri Catalog.list_resources).

(** A text without a colon. *)
Fixpoint no_colon (s : string) : bool :=
  match s with
  | EmptyString => true
  | String c r => negb (Ascii.eqb c ":") && no_colon r
  end.

(** A variable of the environment that is set to a non-empty text. *)
Definition is_set (env : gmap string string) (var : string) : Prop :=
  exists v, env !! var = Some v /\ v <> "".

(** A tool outside the catalog, for closed instances. *)
Definition no_tool : Catalog.Tool :=
  {| Catalog.tool_name := "";
     Catalog.tool_description := "";
     Catalog.inputSchema :=
       {| Catalog.schema_type := "object";
          Catalog.properties := [];
          Catalog.additionalProperties := false |} |}.

(** An environment that names an instance, for closed instances. *)
Definition sample_env : gmap string string :=
  <[ "ALLOYDB_PROJECT_ID" := "proj" ]>
    (<[ "ALLOYDB_REGION" := "europe-west1" ]>
       (<[ "ALLOYDB_CLUSTER_ID" := "surveys" ]>
          (<[ "ALLOYDB_INSTANCE_ID" := "primary" ]> ∅))).

(** A driver that connects and closes without fault. *)
Definition reliable (d : driver) : Prop :=
  (forall tr, drv_connect d tr = None) /\ (forall tr, drv_close d tr = None).

(** ** Placeholders of a concatenation *)

Section Placeholders.

Lemma read_digits_app (r b : string) :
  r <> "" -> ends_open r = false ->
  forall acc, read_digits acc (r +:+ b) = read_digits acc r.
Proof.
  induction r as [|c r IH]; [congruence|].
  intros _ Hopen acc. simpl.
  destruct (is_digit c) eqn:Hc; [|reflexivity].
  destruct r as [|c' r'].
  - cbn in Hopen. rewrite Hc, orb_true_r in Hopen. discriminate.
  - apply IH; [discriminate|exact Hopen].
Qed.

Lemma starts_with_digit_app (r b : string) :
  r <> "" -> starts_with_digit (r +:+ b) = starts_with_digit r.
Proof. destruct r; [congruence|reflexivity]. Qed.

Lemma placeholders_cons (c : ascii) (r : string) :
  placeholders (String c r) =
  if Ascii.eqb c "$" && starts_with_digit r
  then read_digits 0 r :: placeholders r
  else placeholders r.
Proof. reflexivity. Qed.

Lemma placeholders_app (a b : string) :
  ends_open a = false ->
  placeholders (a +:+ b) = placeholders a ++ placeholders b.
Proof.
  induction a as [|c r IH]; [reflexivity|].
  intros Hopen. destruct r as [|c' r'].
  - cbn in Hopen. apply orb_false_elim in Hopen as [Hd _].
    simpl. rewrite Hd. reflexivity.
  - assert (Hne : String c' r' <> "") by discriminate.
    change (String c (String c' r') +:+ b) with (String c (String c' r' +:+ b)).
    rewrite !placeholders_cons.
    rewrite (starts_with_digit_app _ b Hne), (read_digits_app _ b Hne Hopen).
    rewrite (IH Hopen).
    destruct (Ascii.eqb c "$" && starts_with_digit (String c' r')); reflexivity.
Qed.

Lemma placeholders_no_dollar (s : string) :
  no_dollar s = true -> placeholders s = [].
Proof.
  induction s as [|c r IH]; [reflexivity|].
  cbn. intros [Hc Hr]%andb_true_iff.
  apply negb_true_iff in Hc. rewrite Hc. cbn. auto.
Qed.

Lemma no_dollar_uint (u : Decimal.uint) :
  no_dollar (NilEmpty.string_of_uint u) = true.
Proof. induction u; cbn; auto. Qed.

Lemma no_dollar_str_int (z : Z) : no_dollar (str_int z) = true.
Proof.
  unfold str_int, NilZero.string_of_int, NilZero.string_of_uint.
  destruct (Z.to_int z) as [u|u]; destruct u; cbn; auto using no_dollar_uint.
Qed.

Lemma placeholders_str_int (z : Z) : placeholders (str_int z) = [].
Proof. apply placeholders_no_dollar, no_dollar_str_int. Qed.

Lemma string_app_assoc (a b c : string) : (a +:+ b) +:+ c = a +:+ (b +:+ c).
Proof.
  induction a as [|x a IH]; [reflexivity|].
  change (String x ((a +:+ b) +:+ c) = String x (a +:+ b +:+ c)).
  now rewrite IH.
Qed.

Lemma ends_open_app_cons (a : string) (c : ascii) (r : string) :
  ends_open (a +:+ String c r) = ends_open (String c r).
Proof.
  induction a as [|x a IH]; [reflexivity|].
  change (String x a +:+ String c r) with (String x (a +:+ String c r)).
  destruct a; exact IH.
Qed.

(** The closing clause of [get_survey_data] adds no placeholder. *)
Lemma placeholders_order_limit (prefix : string) (limit : Z) :
  placeholders (prefix +:+ " ORDER BY survey_date DESC LIMIT " +:+ str_int limit)
  = placeholders (prefix +:+ " ORDER BY survey_date DESC LIMIT ").
Proof.
  rewrite <- string_app_assoc.
  rewrite placeholders_app by (rewrite ends_open_app_cons; reflexivity).
  now rewrite placeholders_str_int, app_nil_r.
Qed.

End Placeholders.

(** ** The survey query builder *)

(** The truth test of the code is the one spelled out by
    [takes_effect]. *)
Lemma truthy_takes_effect (v : pyval) : truthy v = takes_effect v.
Proof. destruct v as [|[|]|[| |]|[|]]; reflexivity. Qed.

Section SurveyQuery.

Variable survey_id : option Z.
Variables location date_from date_to respondent_type : option string.
Variable limit : Z.

Lemma get_survey_data_query_refines :
  get_survey_data_query survey_id location date_from date_to respondent_type limit
  = built_query_spec survey_id location date_from date_to respondent_type limit.
Proof.
  unfold get_survey_data_query, built_query_spec, effective_filters,
    declared_filters.
  cbn [List.filter fst snd]. rewrite <- !truthy_takes_effect.
  destruct (truthy (opt_int survey_id)), (truthy (opt_str location)),
    (truthy (opt_str date_from)), (truthy (opt_str date_to)),
    (truthy (opt_str respondent_type)); reflexivity.
Qed.

Lemma effective_at_most_supplied :
  (length (effective_filters survey_id location date_from date_to respondent_type)
   <= supplied_count survey_id location date_from date_to respondent_type)%nat.
Proof.
  destruct survey_id as [[| |]|], location as [[|]|], date_from as [[|]|],
    date_to as [[|]|], respondent_type as [[|]|]; vm_compute; lia.
Qed.

(** C1, as the code has it.  Let [k] be the number of the five optional
    filters that are supplied with a value other than zero and other
    than the empty string (at most the number of supplied ones).  The
    text built by [get_survey_data] carries exactly the placeholders
    [$1], ..., [$k], the parameter list has length [k], and text and
    parameters are those of one pass over these filters in the declared
    order identifier, location, date-from, date-to, respondent-type. *)
Theorem get_survey_data_query_placeholders :
  let q := get_survey_data_query survey_id location date_from date_to
             respondent_type limit in
  let present :=
    effective_filters survey_id location date_from date_to respondent_type in
  let k := length present in
  placeholders (fst q) = map Z.of_nat (seq 1 k)
  /\ length (snd q) = k
  /\ fst q = select_surveys +:+ String.concat "" (imap fragment present)
               +:+ " ORDER BY survey_date DESC LIMIT " +:+ str_int limit
  /\ snd q = map snd present
  /\ (k <= supplied_count survey_id location date_from date_to respondent_type)%nat.
Proof.
  cbv zeta. rewrite get_survey_data_query_refines.
  unfold built_query_spec. cbn [fst snd].
  rewrite length_map.
  split; [|split; [reflexivity|split; [reflexivity|split;
    [reflexivity|apply effective_at_most_supplied]]]].
  rewrite <- (string_app_assoc select_surveys), placeholders_order_limit.
  unfold effective_filters, declared_filters. cbn [List.filter fst snd].
  destruct (takes_effect (opt_int survey_id)), (takes_effect (opt_str location)),
    (takes_effect (opt_str date_from)), (takes_effect (opt_str date_to)),
    (takes_effect (opt_str respondent_type)); vm_compute; reflexivity.
Qed.

(** C9. A filter value that is supplied but falsy is treated as absent:
    [survey_id=0], or an empty string for location, date_from, date_to
    or respondent_type, gives the very query (text and parameters) that
    omitting the field gives. *)
Theorem falsy_filter_is_absent :
  get_survey_data_query (Some 0) location date_from date_to respondent_type limit
  = get_survey_data_query None location date_from date_to respondent_type limit
  /\ get_survey_data_query survey_id (Some "") date_from date_to respondent_type limit
     = get_survey_data_query survey_id None date_from date_to respondent_type limit
  /\ get_survey_data_query survey_id location (Some "") date_to respondent_type limit
     = get_survey_data_query survey_id location None date_to respondent_type limit
  /\ get_survey_data_query survey_id location date_from (Some "") respondent_type limit
     = get_survey_data_query survey_id location date_from None respondent_type limit
  /\ get_survey_data_query survey_id location date_from date_to (Some "") limit
     = get_survey_data_query survey_id location date_from date_to None limit.
Proof. repeat split; reflexivity. Qed.

End SurveyQuery.

(** C1 as worded fails.  A filter set with one field supplied,
    [survey_id=0] or [location=""], gives a text without a placeholder
    and an empty parameter list; [fetch_survey_data] accepts such
    arguments and runs the unfiltered query. *)
Lemma supplied_falsy_filter_adds_no_placeholder :
  supplied_count (Some 0) None None None None = 1%nat
  /\ placeholders (fst (get_survey_data_query (Some 0) None None None None 100)) = []
  /\ snd (get_survey_data_query (Some 0) None None None None 100) = []
  /\ supplied_count None (Some "") None None None = 1%nat
  /\ placeholders (fst (get_survey_data_query None (Some "") None None None 100)) = []
  /\ snd (get_survey_data_query None (Some "") None None None 100) = []
  /\ snd (call_tool no_str_as_int plain_validation_message (Some sample_db)
            "fetch_survey_data" {[ "survey_id" := PyInt 0 ]} [])
     = [EvAcquire;
        EvFetch (select_surveys +:+ " ORDER BY survey_date DESC LIMIT 100") [];
        EvClose].
Proof. repeat split; vm_compute; reflexivity. Qed.

(** ** The search query builder *)

Lemma search_build_params (question_text response_text : pyval) :
  search_params (search_build question_text response_text)
  = map wildcard (List.filter takes_effect [question_text; response_text]).
Proof.
  unfold search_build. cbn [List.filter]. rewrite <- !truthy_takes_effect.
  destruct (truthy question_text), (truthy response_text); reflexivity.
Qed.

Lemma search_query_is_search_text (conditions : list string) (limit : pyval) :
  search_query conditions limit
  = search_text (String.concat " AND " conditions) (py_str limit).
Proof. reflexivity. Qed.

(** C5, as the code has it.  When exactly one of the two texts is
    supplied with a value that passes the truth test, the search branch
    builds the search statement with the single predicate
    [questions_responses::text ILIKE $1], binds that text between
    wildcard markers and executes the two.  When both are so supplied it
    builds the statement with two such predicates, on [$1] and [$2],
    joined by AND, each bound to its own wildcarded text. *)
Theorem search_builds_one_or_two_predicates (db : AlloyDBConnection)
    (arguments : gmap string pyval) :
  let question_text := dict_get arguments "question_text" in
  let response_text := dict_get arguments "response_text" in
  (takes_effect question_text = true -> takes_effect response_text = false ->
   search_runs db arguments "questions_responses::text ILIKE $1"
     [wildcard question_text])
  /\ (takes_effect question_text = false -> takes_effect response_text = true ->
      search_runs db arguments "questions_responses::text ILIKE $1"
        [wildcard response_text])
  /\ (takes_effect question_text = true -> takes_effect response_text = true ->
      search_runs db arguments
        "questions_responses::text ILIKE $1 AND questions_responses::text ILIKE $2"
        [wildcard question_text; wildcard response_text]).
Proof.
  cbv zeta. rewrite <- !truthy_takes_effect.
  unfold search_runs, search_surveys_by_question, search_build.
  split; [|split]; intros Hq Hr; rewrite Hq, Hr; repeat split.
Qed.

Lemma search_builds_one_or_two_predicates_witness :
  search_runs sample_db {[ "question_text" := PyStr "abc" ]}
    "questions_responses::text ILIKE $1" [PyStr "%abc%"]
  /\ search_runs sample_db
       (<[ "response_text" := PyStr "yes" ]> {[ "question_text" := PyStr "abc" ]})
       "questions_responses::text ILIKE $1 AND questions_responses::text ILIKE $2"
       [PyStr "%abc%"; PyStr "%yes%"].
Proof.
  split.
  - exact (proj1 (search_builds_one_or_two_predicates sample_db
                    {[ "question_text" := PyStr "abc" ]}) eq_refl eq_refl).
  - exact (proj2 (proj2 (search_builds_one_or_two_predicates sample_db
                    (<[ "response_text" := PyStr "yes" ]>
                       {[ "question_text" := PyStr "abc" ]}))) eq_refl eq_refl).
Defined.

(** C5 as worded fails.  With both texts supplied, one of them empty,
    one predicate is built, not two; with exactly one text supplied, and
    that one empty, no predicate is built and the call is answered with
    the error text. *)
Lemma empty_search_text_builds_no_predicate :
  search_conditions (search_build (PyStr "") (PyStr "abc"))
  = ["questions_responses::text ILIKE $1"]
  /\ search_params (search_build (PyStr "") (PyStr "abc")) = [PyStr "%abc%"]
  /\ search_conditions (search_build (PyStr "") PyNone) = []
  /\ call_tool no_str_as_int plain_validation_message (Some sample_db)
       "search_surveys_by_question" {[ "question_text" := PyStr "" ]} []
     = (Ok (tool_text (Plain
          "Error: At least one search parameter (question_text or response_text) is required")),
        []).
Proof. repeat split; vm_compute; reflexivity. Qed.

(** C2, as the code has it.  The SQL text depends on the caller's
    filter values only through which of them pass the truth test.  Two
    filter sets in which the same fields carry a value other than zero
    and other than the empty string give, with the same limit, the same
    survey query text; two search argument sets in which the same texts
    pass the test give, with the same limit, the same search query
    text; the values themselves go to the parameter list, location and
    search texts between wildcard markers. *)
Theorem sql_text_independent_of_values
    (survey_id1 survey_id2 : option Z)
    (location1 location2 date_from1 date_from2 : option string)
    (date_to1 date_to2 respondent_type1 respondent_type2 : option string)
    (limit : Z) (question_text1 question_text2 : pyval)
    (response_text1 response_text2 search_limit : pyval) :
  takes_effect (opt_int survey_id1) = takes_effect (opt_int survey_id2) ->
  takes_effect (opt_str location1) = takes_effect (opt_str location2) ->
  takes_effect (opt_str date_from1) = takes_effect (opt_str date_from2) ->
  takes_effect (opt_str date_to1) = takes_effect (opt_str date_to2) ->
  takes_effect (opt_str respondent_type1) = takes_effect (opt_str respondent_type2) ->
  takes_effect question_text1 = takes_effect question_text2 ->
  takes_effect response_text1 = takes_effect response_text2 ->
  fst (get_survey_data_query survey_id1 location1 date_from1 date_to1
         respondent_type1 limit)
  = fst (get_survey_data_query survey_id2 location2 date_from2 date_to2
           respondent_type2 limit)
  /\ snd (get_survey_data_query survey_id1 location1 date_from1 date_to1
            respondent_type1 limit)
     = map snd (effective_filters survey_id1 location1 date_from1 date_to1
                  respondent_type1)
  /\ search_query (search_conditions (search_build question_text1 response_text1))
       search_limit
     = search_query (search_conditions (search_build question_text2 response_text2))
         search_limit
  /\ search_params (search_build question_text1 response_text1)
     = map wildcard (List.filter takes_effect [question_text1; response_text1]).
Proof.
  rewrite <- !truthy_takes_effect.
  intros Hi Hl Hf Ht Hr Hq Hs. repeat split.
  - unfold get_survey_data_query. rewrite Hi, Hl, Hf, Ht, Hr.
    destruct (truthy (opt_int survey_id2)), (truthy (opt_str location2)),
      (truthy (opt_str date_from2)), (truthy (opt_str date_to2)),
      (truthy (opt_str respondent_type2)); reflexivity.
  - now rewrite get_survey_data_query_refines.
  - unfold search_build. rewrite Hq, Hs.
    destruct (truthy question_text2), (truthy response_text2); reflexivity.
  - apply search_build_params.
Qed.

Lemma sql_text_independent_of_values_witness :
  fst (get_survey_data_query (Some 1) (Some "Springfield") None None
         (Some "farmer") 10)
  = fst (get_survey_data_query (Some 42) (Some "x' OR '1'='1") None None
           (Some "'; DROP TABLE surveys; --") 10)
  /\ snd (get_survey_data_query (Some 1) (Some "Springfield") None None
            (Some "farmer") 10)
     = [PyInt 1; PyStr "%Springfield%"; PyStr "farmer"]
  /\ search_query (search_conditions (search_build (PyStr "water") PyNone))
       (PyInt 50)
     = search_query (search_conditions (search_build (PyStr "a%' OR 1=1") PyNone))
         (PyInt 50)
  /\ search_params (search_build (PyStr "water") PyNone) = [PyStr "%water%"].
Proof.
  apply (sql_text_independent_of_values
           (Some 1) (Some 42) (Some "Springfield") (Some "x' OR '1'='1")
           None None None None (Some "farmer") (Some "'; DROP TABLE surveys; --")
           10 (PyStr "water") (PyStr "a%' OR 1=1") PyNone PyNone (PyInt 50));
    reflexivity.
Defined.

(** C2 as worded fails.  Two filter sets with the same field supplied,
    and two search argument sets with the same texts supplied, differ in
    their SQL text when one of the values is zero or empty: the text
    tells whether the value passed the truth test. *)
Lemma same_fields_supplied_different_text :
  supplied_count (Some 0) None None None None
  = supplied_count (Some 5) None None None None
  /\ fst (get_survey_data_query (Some 0) None None None None 100)
     <> fst (get_survey_data_query (Some 5) None None None None 100)
  /\ search_query (search_conditions (search_build (PyStr "") (PyStr "y")))
       (PyInt 50)
     <> search_query (search_conditions (search_build (PyStr "x") (PyStr "y")))
          (PyInt 50).
Proof.
  split; [reflexivity|split]; intros H; apply (f_equal placeholders) in H;
    vm_compute in H; discriminate H.
Qed.

(** ** Connections and recovery *)

Section Monad.

Context {A : Type}.

Lemma ok_sat_ret (P : A -> Prop) (a : A) : P a -> ok_sat P (ret a).
Proof. intros H tr. exact H. Qed.

Lemma ok_sat_raise (P : A -> Prop) (e : exn) : ok_sat P (raise e).
Proof. intros tr. exact I. Qed.

Lemma ok_sat_bind {B} (P : A -> Prop) (m : M B) (k : B -> M A) :
  (forall x, ok_sat P (k x)) -> ok_sat P (bind m k).
Proof.
  intros H tr. unfold bind. destruct (m tr) as [[x|e] tr']; [apply H|exact I].
Qed.

Lemma try_except_recovered (P : A -> Prop) (m : M A) (h : exn -> M A) :
  ok_sat P m -> (forall e, returns P (h e)) ->
  forall tr, recovered P (fst (try_except m h tr)).
Proof.
  intros Hm Hh tr. unfold try_except. specialize (Hm tr).
  destruct (m tr) as [[a|e] tr']; [exact Hm|].
  destruct (is_Exception e) eqn:He; [|exact He].
  destruct (Hh e tr') as (a & -> & Ha). exact Ha.
Qed.

End Monad.

Lemma execute_query_run (d : driver) (query : string)
    (params : option (list pyval)) (tr : trace) :
  drv_connect d tr = None ->
  execute_query {| _getconn := Some d |} query params tr
  = (match drv_close d (tr ++ [EvAcquire; EvFetch query (fetch_args params)]) with
     | None => drv_fetch d (tr ++ [EvAcquire]) query (fetch_args params)
     | Some e => Raise e
     end,
     tr ++ [EvAcquire; EvFetch query (fetch_args params); EvClose]).
Proof.
  intros Hc.
  assert (Hrun : forall args,
    (_ <- getconn d ;;
     try_finally (try_except (conn_fetch d query args) (fun e => raise e))
       (conn_close d)) tr
    = (match drv_close d (tr ++ [EvAcquire; EvFetch query args]) with
       | None => drv_fetch d (tr ++ [EvAcquire]) query args
       | Some e => Raise e
       end, tr ++ [EvAcquire; EvFetch query args; EvClose])).
  { intros args.
    unfold bind, getconn, try_finally, try_except, conn_fetch, conn_close, raise.
    rewrite Hc.
    replace (tr ++ [EvAcquire; EvFetch query args])
      with ((tr ++ [EvAcquire]) ++ [EvFetch query args])
      by (rewrite <- app_assoc; reflexivity).
    replace (tr ++ [EvAcquire; EvFetch query args; EvClose])
      with (((tr ++ [EvAcquire]) ++ [EvFetch query args]) ++ [EvClose])
      by (rewrite <- !app_assoc; reflexivity).
    destruct (drv_fetch d (tr ++ [EvAcquire]) query args) as [rows|e];
      [|destruct (is_Exception e)];
      destruct (drv_close d ((tr ++ [EvAcquire]) ++ [EvFetch query args]));
      reflexivity. }
  unfold execute_query. cbn [_getconn].
  destruct params as [[|p ps]|]; apply Hrun.
Qed.

(** C7. Once [execute_query] has acquired a connection it closes it on
    every exit path: whatever the fetch does (rows, a query error, a
    cancellation), the events are acquire, fetch, close, in that order,
    and the outcome of the fetch is the outcome of the call when the
    close itself succeeds. *)
Theorem execute_query_releases (d : driver) (query : string)
    (params : option (list pyval)) (tr : trace) :
  drv_connect d tr = None ->
  snd (execute_query {| _getconn := Some d |} query params tr)
  = tr ++ [EvAcquire; EvFetch query (fetch_args params); EvClose]
  /\ (drv_close d (tr ++ [EvAcquire; EvFetch query (fetch_args params)]) = None ->
      fst (execute_query {| _getconn := Some d |} query params tr)
      = drv_fetch d (tr ++ [EvAcquire]) query (fetch_args params)).
Proof.
  intros Hc. rewrite (execute_query_run _ _ _ _ Hc). cbn [fst snd].
  split; [reflexivity|]. intros ->. reflexivity.
Qed.

Lemma execute_query_releases_witness :
  (snd (execute_query {| _getconn := Some (answering (Raise CancelledError)) |}
          "SELECT 1" None [])
   = [EvAcquire; EvFetch "SELECT 1" []; EvClose]
   /\ fst (execute_query {| _getconn := Some (answering (Raise CancelledError)) |}
            "SELECT 1" None [])
      = Raise CancelledError)
  /\ (snd (execute_query
             {| _getconn := Some (answering (Raise (Exception "PostgresError" "syntax error"))) |}
             "SELEC" (Some [PyInt 1]) [])
      = [EvAcquire; EvFetch "SELEC" [PyInt 1]; EvClose])
  /\ (snd (execute_query {| _getconn := Some (answering (Ok [])) |}
             "SELECT 1" None [])
      = [EvAcquire; EvFetch "SELECT 1" []; EvClose]).
Proof.
  split; [|split].
  - destruct (execute_query_releases (answering (Raise CancelledError))
                "SELECT 1" None [] eq_refl) as [Ht Hr].
    split; [exact Ht|exact (Hr eq_refl)].
  - exact (proj1 (execute_query_releases
                    (answering (Raise (Exception "PostgresError" "syntax error")))
                    "SELEC" (Some [PyInt 1]) [] eq_refl)).
  - exact (proj1 (execute_query_releases (answering (Ok [])) "SELECT 1" None []
                    eq_refl)).
Defined.

Section Dispatcher.

Variable str_as_int : string -> option Z.
Variable validation_message : gmap string pyval -> string.

(** C10. While the process-wide connection is uninitialised, [call_tool]
    returns the text "Error: Database connection not initialized" for
    every tool name and argument mapping; it does not raise and it
    executes no query. *)
Theorem call_tool_uninitialized (name : string) (arguments : gmap string pyval)
    (tr : trace) :
  call_tool str_as_int validation_message None name arguments tr
  = (Ok (tool_text (Plain "Error: Database connection not initialized")), tr).
Proof. reflexivity. Qed.

Lemma search_without_conditions (db : AlloyDBConnection)
    (arguments : gmap string pyval) (tr : trace) :
  truthy (dict_get arguments "question_text") = false ->
  truthy (dict_get arguments "response_text") = false ->
  call_tool str_as_int validation_message (Some db)
    "search_surveys_by_question" arguments tr
  = (Ok (tool_text (Plain
       "Error: At least one search parameter (question_text or response_text) is required")),
     tr).
Proof.
  intros Hq Hr. unfold call_tool, try_except.
  change (call_tool_body str_as_int validation_message db
            "search_surveys_by_question" arguments)
    with (search_surveys_by_question db arguments).
  unfold search_surveys_by_question, search_build.
  rewrite Hq, Hr. reflexivity.
Qed.

(** C4. [search_surveys_by_question] with both [question_text] and
    [response_text] absent answers with the user-visible error text; no
    search condition, hence no SQL text, has been built and the trace
    is unchanged: no query was executed. *)
Theorem search_without_text_is_rejected (db : AlloyDBConnection)
    (arguments : gmap string pyval) (tr : trace) :
  arguments !! "question_text" = None ->
  arguments !! "response_text" = None ->
  call_tool str_as_int validation_message (Some db)
    "search_surveys_by_question" arguments tr
  = (Ok (tool_text (Plain
       "Error: At least one search parameter (question_text or response_text) is required")),
     tr)
  /\ search_conditions (search_build (dict_get arguments "question_text")
                          (dict_get arguments "response_text")) = [].
Proof.
  intros Hq Hr. split.
  - apply search_without_conditions; unfold dict_get; [rewrite Hq|rewrite Hr];
      reflexivity.
  - unfold dict_get. rewrite Hq, Hr. reflexivity.
Qed.

End Dispatcher.

Lemma search_without_text_is_rejected_witness :
  call_tool no_str_as_int plain_validation_message
    (Some {| _getconn := Some (answering (Ok [])) |})
    "search_surveys_by_question" {[ "limit" := PyInt 5 ]} []
  = (Ok (tool_text (Plain
       "Error: At least one search parameter (question_text or response_text) is required")),
     [])
  /\ search_conditions
       (search_build (dict_get {[ "limit" := PyInt 5 ]} "question_text")
          (dict_get {[ "limit" := PyInt 5 ]} "response_text")) = [].
Proof.
  apply (search_without_text_is_rejected no_str_as_int plain_validation_message
           {| _getconn := Some (answering (Ok [])) |} {[ "limit" := PyInt 5 ]} []);
    reflexivity.
Defined.

(** ** Dispatch *)

Lemma fetch_args_some (ps : list pyval) : fetch_args (Some ps) = ps.
Proof. destruct ps; reflexivity. Qed.

Lemma execute_query_cases (db : AlloyDBConnection) (query : string)
    (params : option (list pyval)) (tr : trace) :
  (exists e, execute_query db query params tr = (Raise e, tr))
  \/ (exists e, execute_query db query params tr = (Raise e, tr ++ [EvConnectFailed]))
  \/ (exists d, _getconn db = Some d
        /\ execute_query db query params tr
           = (match drv_close d (tr ++ [EvAcquire; EvFetch query (fetch_args params)]) with
              | None => drv_fetch d (tr ++ [EvAcquire]) query (fetch_args params)
              | Some e => Raise e
              end,
              tr ++ [EvAcquire; EvFetch query (fetch_args params); EvClose])).
Proof.
  destruct db as [[d|]].
  - destruct (drv_connect d tr) as [e|] eqn:Hc.
    + right; left. exists e. unfold execute_query, bind, getconn. cbn [_getconn].
      rewrite Hc. reflexivity.
    + right; right. exists d. split; [reflexivity|].
      now apply execute_query_run.
  - left. eexists. reflexivity.
Qed.

Section Traces.

Context {A B : Type}.

Lemma snd_bind_ret (m : M A) (f : A -> B) (tr : trace) :
  snd ((x <- m ;; ret (f x)) tr) = snd (m tr).
Proof. unfold bind, ret. destruct (m tr) as [[a|e] tr']; reflexivity. Qed.

Lemma snd_try_except (m : M A) (h : exn -> M A) (tr : trace) :
  (forall e tr', snd (h e tr') = tr') ->
  snd (try_except m h tr) = snd (m tr).
Proof.
  intros Hh. unfold try_except. destruct (m tr) as [[a|e] tr']; [reflexivity|].
  destruct (is_Exception e); [apply Hh|reflexivity].
Qed.

End Traces.

Lemma select_names_search_query (conditions : list string) (limit : pyval) :
  select_names (search_query conditions limit) = search_columns.
Proof. vm_compute. reflexivity. Qed.

Lemma select_names_select_surveys :
  select_names select_surveys = survey_record_columns.
Proof. vm_compute. reflexivity. Qed.

Lemma faithful_one_null_row : faithful one_null_row.
Proof.
  intros tr query args rows [= <-]. constructor; [|constructor].
  rewrite map_map. cbn [fst]. apply map_id.
Qed.

Section Dispatch.

Variable str_as_int : string -> option Z.
Variable validation_message : gmap string pyval -> string.
Variable contents_error : list TextContent -> string.






End Dispatch.



Section Validation.

Variable str_as_int : string -> option Z.
Variable validation_message : gmap string pyval -> string.

Lemma SurveyQueryParams_init_limit (arguments : gmap string pyval)
    (p : SurveyQueryParams) :
  SurveyQueryParams_init str_as_int validation_message arguments = Ok p ->
  default_field (lax_int str_as_int) 100 (arguments !! "limit") = Some (limit p).
Proof.
  unfold SurveyQueryParams_init.
  destruct (optional_field _ (arguments !! "survey_id")); [|discriminate].
  destruct (optional_field _ (arguments !! "location")); [|discriminate].
  destruct (optional_field _ (arguments !! "date_from")); [|discriminate].
  destruct (optional_field _ (arguments !! "date_to")); [|discriminate].
  destruct (optional_field _ (arguments !! "respondent_type")); [|discriminate].
  destruct (default_field _ _ (arguments !! "limit")); [|discriminate].
  intros [= <-]. reflexivity.
Qed.

Lemma SurveyQueryParams_init_rejects (arguments : gmap string pyval) :
  default_field (lax_int str_as_int) 100 (arguments !! "limit") = None ->
  SurveyQueryParams_init str_as_int validation_message arguments
  = Raise (Exception "ValidationError" (validation_message arguments)).
Proof.
  unfold SurveyQueryParams_init. intros ->.
  destruct (optional_field _ (arguments !! "survey_id")); [|reflexivity].
  destruct (optional_field _ (arguments !! "location")); [|reflexivity].
  destruct (optional_field _ (arguments !! "date_from")); [|reflexivity].
  destruct (optional_field _ (arguments !! "date_to")); [|reflexivity].
  destruct (optional_field _ (arguments !! "respondent_type")); reflexivity.
Qed.

Lemma call_tool_fetch (db : AlloyDBConnection) (arguments : gmap string pyval) :
  call_tool str_as_int validation_message (Some db) "fetch_survey_data" arguments
  = try_except (fetch_survey_data str_as_int validation_message db arguments)
      (fun e => ret (tool_text (Plain ("Error: " +:+ exn_str e)))).
Proof. reflexivity. Qed.

Lemma call_tool_search (db : AlloyDBConnection) (arguments : gmap string pyval) :
  call_tool str_as_int validation_message (Some db) "search_surveys_by_question"
    arguments
  = try_except (search_surveys_by_question db arguments)
      (fun e => ret (tool_text (Plain ("Error: " +:+ exn_str e)))).
Proof. reflexivity. Qed.

(** C3, as the code has it.  [fetch_survey_data] validates [limit] as an
    integer, of either sign, before the builder runs.  When the supplied
    limit fails that validation the call answers with the validation
    error text and the trace is unchanged: no query text was built or
    executed.  When it validates to [n], every query the call executes
    is one built by [get_survey_data] with limit [n]. *)
Theorem fetch_limit_integer_validation (db : AlloyDBConnection)
    (arguments : gmap string pyval) (tr : trace) :
  (default_field (lax_int str_as_int) 100 (arguments !! "limit") = None ->
   call_tool str_as_int validation_message (Some db) "fetch_survey_data"
     arguments tr
   = (Ok (tool_text (Plain ("Error: " +:+ validation_message arguments))), tr))
  /\ (forall n evs query ps,
        default_field (lax_int str_as_int) 100 (arguments !! "limit") = Some n ->
        snd (call_tool str_as_int validation_message (Some db) "fetch_survey_data"
               arguments tr) = tr ++ evs ->
        In (EvFetch query ps) evs ->
        exists sid loc df dt rt,
          (query, ps) = get_survey_data_query sid loc df dt rt n).
Proof.
  rewrite call_tool_fetch. split; [intros Hn|intros n evs query ps Hn].
  2: { intros Htr Hin.
    rewrite snd_try_except in Htr by reflexivity.
    unfold fetch_survey_data, bind at 1, lift in Htr.
    destruct (SurveyQueryParams_init _ _ arguments) as [p|e] eqn:Hp.
    + apply SurveyQueryParams_init_limit in Hp. rewrite Hn in Hp.
      injection Hp as ->.
      rewrite snd_bind_ret in Htr. unfold get_survey_data in Htr.
      remember (get_survey_data_query (survey_id p) (location p) (date_from p)
                  (date_to p) (respondent_type p) (limit p)) as q eqn:Hq.
      destruct (execute_query_cases db (fst q) (Some (snd q)) tr)
        as [[e He]|[[e He]|[d [_ He]]]];
        rewrite He in Htr; cbn [snd] in Htr.
      * rewrite <- (app_nil_r tr) in Htr at 1.
        apply app_inv_head in Htr. subst evs. destruct Hin.
      * apply app_inv_head in Htr. subst evs.
        destruct Hin as [Hin|[]]; discriminate.
      * rewrite fetch_args_some in Htr.
        apply app_inv_head in Htr. subst evs.
        destruct Hin as [Hin|[Hin|[Hin|[]]]]; try discriminate.
        injection Hin as <- <-.
        exists (survey_id p), (location p), (date_from p), (date_to p),
          (respondent_type p).
        rewrite <- Hq. now destruct q.
    + cbn [snd] in Htr. rewrite <- (app_nil_r tr) in Htr at 1.
      apply app_inv_head in Htr. subst evs. destruct Hin. }
  unfold try_except, fetch_survey_data, bind, lift.
  rewrite (SurveyQueryParams_init_rejects _ Hn). reflexivity.
Qed.

(** C8, as the code has it.  Against a driver that keys rows by the
    select list, every element of [matching_surveys] carries exactly the
    seven columns the search query selects: survey_id, respondent_id,
    survey_date, location, respondent_type, questions_responses and
    created_at. *)
Theorem search_rows_have_selected_columns (d : driver)
    (arguments : gmap string pyval) (tr : trace) (res : CallToolResult)
    (items : list json) :
  faithful d ->
  fst (call_tool str_as_int validation_message (Some {| _getconn := Some d |})
         "search_surveys_by_question" arguments tr) = Ok res ->
  matching_surveys res = Some items ->
  Forall (fun j => json_keys j = search_columns) items.
Proof.
  intros Hd Hres Hitems. rewrite call_tool_search in Hres.
  unfold try_except, search_surveys_by_question in Hres.
  destruct (search_conditions _) as [|c cs] eqn:Hconds.
  { cbn in Hres. injection Hres as <-. discriminate. }
  rewrite <- Hconds in Hres. unfold bind at 1 in Hres.
  match type of Hres with
  | context [execute_query ?db ?q ?ps tr] =>
      destruct (execute_query_cases db q ps tr)
        as [[e He]|[[e He]|[d' [Heq He]]]]; rewrite He in Hres
  end.
  1,2: destruct (is_Exception e); [|discriminate];
       cbn in Hres; injection Hres as <-; discriminate.
  cbn [_getconn] in Heq. injection Heq as <-.
  destruct (drv_close d _) as [e|].
  { destruct (is_Exception e); [|discriminate].
    cbn in Hres. injection Hres as <-. discriminate. }
  destruct (drv_fetch d _ _ _) as [rows|e] eqn:Hfetch.
  - cbn in Hres. injection Hres as <-. cbn in Hitems. injection Hitems as <-.
    apply Hd in Hfetch. rewrite select_names_search_query in Hfetch.
    apply Forall_map. eapply Forall_impl; [exact Hfetch|].
    intros r Hr. cbn. rewrite map_map. exact Hr.
  - destruct (is_Exception e); [|discriminate].
    cbn in Hres. injection Hres as <-. discriminate.
Qed.

End Validation.

Lemma fetch_limit_integer_validation_witness :
  call_tool no_str_as_int plain_validation_message (Some sample_db)
    "fetch_survey_data" {[ "limit" := PyStr "ten" ]} []
  = (Ok (tool_text (Plain "Error: validation error")), [])
  /\ exists sid loc df dt rt,
       (select_surveys +:+ " ORDER BY survey_date DESC LIMIT 7", [])
       = get_survey_data_query sid loc df dt rt 7.
Proof.
  split.
  - apply (proj1 (fetch_limit_integer_validation no_str_as_int
                    plain_validation_message sample_db
                    {[ "limit" := PyStr "ten" ]} [])).
    reflexivity.
  - apply (proj2 (fetch_limit_integer_validation no_str_as_int
                    plain_validation_message sample_db
                    {[ "limit" := PyInt 7 ]} [])
             7
             [EvAcquire;
              EvFetch (select_surveys +:+ " ORDER BY survey_date DESC LIMIT 7") [];
              EvClose]).
    + reflexivity.
    + vm_compute. reflexivity.
    + right. left. reflexivity.
Defined.

(** C3, as stated, fails: a negative limit passes the validation and is
    written into the query that is executed. *)
Lemma fetch_accepts_negative_limit :
  call_tool no_str_as_int plain_validation_message (Some sample_db)
    "fetch_survey_data" {[ "limit" := PyInt (-1) ]} []
  = (Ok (tool_text (JsonDumps (JObj
       [("count", JVal (PyInt 0)); ("surveys", JList [])]))),
     [EvAcquire;
      EvFetch (select_surveys +:+ " ORDER BY survey_date DESC LIMIT -1") [];
      EvClose]).
Proof. vm_compute. reflexivity. Qed.

Lemma search_rows_have_selected_columns_witness :
  Forall (fun j => json_keys j = search_columns)
    [row_json (map (fun c => (c, PyNone)) search_columns)].
Proof.
  apply (search_rows_have_selected_columns no_str_as_int plain_validation_message
           one_null_row {[ "question_text" := PyStr "water" ]} []
           (tool_text (JsonDumps (JObj
              [("count", JVal (PyInt 1));
               ("matching_surveys",
                JList [row_json (map (fun c => (c, PyNone)) search_columns)])])))).
  - apply faithful_one_null_row.
  - vm_compute. reflexivity.
  - reflexivity.
Defined.

(** C8, as stated, fails: the element returned for a search has neither
    the metadata blob nor the update timestamp of a Survey Record. *)
Lemma search_record_lacks_metadata :
  faithful one_null_row
  /\ exists res item,
       fst (call_tool no_str_as_int plain_validation_message
              (Some {| _getconn := Some one_null_row |})
              "search_surveys_by_question" {[ "question_text" := PyStr "water" ]} [])
       = Ok res
       /\ matching_surveys res = Some [item]
       /\ In "metadata" survey_record_columns
       /\ ~ In "metadata" (json_keys item)
       /\ In "updated_at" survey_record_columns
       /\ ~ In "updated_at" (json_keys item).
Proof.
  split; [apply faithful_one_null_row|].
  eexists _, _. split; [vm_compute; reflexivity|].
  split; [reflexivity|].
  repeat split; cbn; intuition discriminate.
Qed.

(** ** Runs of the search operation *)

(** A search for "abc" executes one query, with the single predicate on
    [$1] and the parameter "%abc%". *)
Example search_abc_run :
  snd (call_tool no_str_as_int plain_validation_message (Some sample_db)
         "search_surveys_by_question" {[ "question_text" := PyStr "abc" ]} [])
  = [EvAcquire;
     EvFetch (search_query ["questions_responses::text ILIKE $1"] (PyInt 50))
       [PyStr "%abc%"];
     EvClose].
Proof. vm_compute. reflexivity. Qed.

(** The search branch reads [limit] with [arguments.get] and formats it
    into the text as it comes; no validation stands in between. *)
Example search_limit_is_formatted_as_given :
  snd (call_tool no_str_as_int plain_validation_message (Some sample_db)
         "search_surveys_by_question"
         (<[ "limit" := PyStr "ALL" ]> {[ "response_text" := PyStr "yes" ]}) [])
  = [EvAcquire;
     EvFetch (search_query ["questions_responses::text ILIKE $1"] (PyStr "ALL"))
       [PyStr "%yes%"];
     EvClose].
Proof. vm_compute. reflexivity. Qed.

(** * Further properties of the code *)

(** ** Runs over a query plan *)

Lemma runs_nil (plan : list (string * list pyval)) : runs plan [].
Proof. destruct plan; now left. Qed.

Lemma runs_app_l (p1 p2 : list (string * list pyval)) (a : list event) :
  runs p1 a -> runs (p1 ++ p2) a.
Proof.
  revert a. induction p1 as [|[query args] p1 IH]; intros a Ha.
  - destruct Ha as [->|[]]. apply runs_nil.
  - destruct Ha as [->|[->|(a' & -> & Ha')]].
    + now left.
    + right. now left.
    + right. right. exists a'. split; [reflexivity|]. now apply IH.
Qed.

Lemma runs_complete_app (p1 p2 : list (string * list pyval)) (b : list event) :
  runs p2 b -> runs (p1 ++ p2) (complete p1 ++ b).
Proof.
  intros Hb. induction p1 as [|[query args] p1 IH]; [exact Hb|].
  right. right. exists (complete p1 ++ b). split; [reflexivity|exact IH].
Qed.

Lemma complete_app (p1 p2 : list (string * list pyval)) :
  complete (p1 ++ p2) = complete p1 ++ complete p2.
Proof. unfold complete. now rewrite flat_map_app. Qed.

Section Emits.

Context {A : Type}.

Lemma emits_ret (a : A) : emits (follows []) (ret a).
Proof.
  intros tr. exists []. rewrite app_nil_r. repeat split. now left.
Qed.

Lemma emits_raise (e : exn) : emits (follows []) (@raise A e).
Proof.
  intros tr. exists []. rewrite app_nil_r. repeat split. now left.
Qed.

Lemma emits_lift (r : result A) : emits (follows []) (lift r).
Proof.
  intros tr. exists []. rewrite app_nil_r. split; [reflexivity|].
  split; [now left|]. cbn. now destruct r.
Qed.

Lemma emits_bind {B} (p1 p2 : list (string * list pyval)) (m : M B)
    (k : B -> M A) :
  emits (follows p1) m -> (forall x, emits (follows p2) (k x)) ->
  emits (follows (p1 ++ p2)) (bind m k).
Proof.
  intros Hm Hk tr. unfold bind.
  destruct (Hm tr) as (a & Ha & Hrun & Hok).
  destruct (m tr) as [[x|e] tr1]; cbn [fst snd] in *; subst tr1.
  - destruct (Hk x (tr ++ a)) as (b & Hb & Hrunb & Hokb).
    exists (a ++ b). rewrite Hb, app_assoc. split; [reflexivity|].
    subst a. split; [now apply runs_complete_app|].
    destruct (fst (k x (tr ++ complete p1))); [|exact I].
    now rewrite complete_app, Hokb.
  - exists a. repeat split. now apply runs_app_l.
Qed.

(** A handler that returns without touching the trace keeps the run,
    and turns outcomes into normal returns. *)
Lemma emits_try_except (plan : list (string * list pyval)) (m : M A)
    (h : exn -> M A) :
  (forall e tr, snd (h e tr) = tr) ->
  emits (follows plan) m ->
  emits (fun _ evs => runs plan evs) (try_except m h).
Proof.
  intros Hh Hm tr. destruct (Hm tr) as (evs & Hevs & Hrun & _).
  exists evs. split; [|exact Hrun].
  unfold try_except. destruct (m tr) as [[a|e] tr1]; [exact Hevs|].
  destruct (is_Exception e); [|exact Hevs].
  rewrite Hh. exact Hevs.
Qed.

End Emits.

Lemma emits_execute_query (db : AlloyDBConnection) (query : string)
    (params : option (list pyval)) :
  emits (follows [(query, fetch_args params)]) (execute_query db query params).
Proof.
  intros tr.
  destruct (execute_query_cases db query params tr)
    as [[e He]|[[e He]|[d [_ He]]]]; rewrite He; cbn [fst snd].
  - exists []. rewrite app_nil_r. repeat split. now left.
  - exists [EvConnectFailed]. repeat split. right. now left.
  - exists [EvAcquire; EvFetch query (fetch_args params); EvClose].
    split; [reflexivity|].
    split.
    + right. right. exists []. split; [reflexivity|]. now left.
    + destruct (drv_close d _); [exact I|].
      destruct (drv_fetch d _ _ _); [reflexivity|exact I].
Qed.

Lemma emits_column (key : string) (rows : list row) :
  emits (follows []) (column key rows).
Proof.
  induction rows as [|r rows IH]; [apply emits_ret|].
  cbn [column]. apply (emits_bind [] []).
  - unfold getitem. destruct (List.find _ r); [apply emits_ret|apply emits_raise].
  - intros v. apply (emits_bind [] []); [exact IH|]. intros vs. apply emits_ret.
Qed.

Lemma emits_ext {A} (Q : result A -> list event -> Prop) (m m' : M A) :
  (forall tr, m tr = m' tr) -> emits Q m -> emits Q m'.
Proof. intros Heq Hm tr. rewrite <- Heq. apply Hm. Qed.

Lemma emits_bind_lift {A B} (Q : result A -> list event -> Prop)
    (r : result B) (k : B -> M A) :
  match r with
  | Ok x => emits Q (k x)
  | Raise e => emits Q (raise e)
  end ->
  emits Q (bind (lift r) k).
Proof. destruct r; intros H; exact H. Qed.

Lemma runs_round_trips (plan : list (string * list pyval)) (evs : list event) :
  runs plan evs ->
  exists n, round_trips evs = Some n /\ (n <= length plan)%nat.
Proof.
  revert evs. induction plan as [|[query args] plan IH]; intros evs Hrun.
  - destruct Hrun as [->|[]]. exists 0%nat. split; [reflexivity|lia].
  - destruct Hrun as [->|[->|(evs' & -> & Hrun)]].
    + exists 0%nat. split; [reflexivity|cbn; lia].
    + exists 1%nat. split; [reflexivity|cbn; lia].
    + destruct (IH _ Hrun) as (n & Hn & Hle).
      exists (S n). cbn. rewrite Hn. split; [reflexivity|lia].
Qed.

Lemma emits_get_survey_statistics (db : AlloyDBConnection) :
  emits (follows [(stats_query, [])]) (get_survey_statistics db).
Proof.
  unfold get_survey_statistics.
  apply (emits_bind [(stats_query, [])] []).
  - apply (emits_execute_query db stats_query None).
  - intros rows. apply emits_ret.
Qed.

Lemma emits_get_locations (db : AlloyDBConnection) :
  emits (follows
    [("SELECT DISTINCT location FROM surveys WHERE location IS NOT NULL ORDER BY location", [])])
    (get_locations db).
Proof.
  unfold get_locations.
  apply (emits_bind [(_, [])] []).
  - apply (emits_execute_query db _ None).
  - intros rows. apply emits_column.
Qed.

Lemma emits_get_respondent_types (db : AlloyDBConnection) :
  emits (follows
    [("SELECT DISTINCT respondent_type FROM surveys WHERE respondent_type IS NOT NULL ORDER BY respondent_type", [])])
    (get_respondent_types db).
Proof.
  unfold get_respondent_types.
  apply (emits_bind [(_, [])] []).
  - apply (emits_execute_query db _ None).
  - intros rows. apply emits_column.
Qed.

Lemma emits_get_survey_data (db : AlloyDBConnection) (sid : option Z)
    (loc df dt rt : option string) (n : Z) :
  emits (follows [get_survey_data_query sid loc df dt rt n])
    (get_survey_data db sid loc df dt rt n).
Proof.
  unfold get_survey_data.
  pose proof (emits_execute_query db
                (fst (get_survey_data_query sid loc df dt rt n))
                (Some (snd (get_survey_data_query sid loc df dt rt n)))) as H.
  rewrite fetch_args_some in H.
  now destruct (get_survey_data_query sid loc df dt rt n).
Qed.

Section PlanFollowed.

Variable str_as_int : string -> option Z.
Variable validation_message : gmap string pyval -> string.
Variable contents_error : list TextContent -> string.

Lemma emits_call_tool_body (db : AlloyDBConnection) (name : string)
    (arguments : gmap string pyval) :
  emits (follows (query_plan str_as_int validation_message name arguments))
    (call_tool_body str_as_int validation_message db name arguments).
Proof.
  unfold call_tool_body, query_plan.
  destruct (String.eqb name "fetch_survey_data").
  { unfold fetch_survey_data.
    apply emits_bind_lift.
    destruct (SurveyQueryParams_init str_as_int validation_message arguments)
      as [p|e].
    - apply (emits_bind [_] []); [apply emits_get_survey_data|].
      intros surveys. apply emits_ret.
    - apply emits_raise. }
  destruct (String.eqb name "get_survey_summary").
  { unfold get_survey_summary.
    apply (emits_bind [_] [_; _]); [apply emits_get_survey_statistics|].
    intros stats.
    apply (emits_bind [_] [_]); [apply emits_get_locations|].
    intros locations.
    apply (emits_bind [_] []); [apply emits_get_respondent_types|].
    intros types. apply emits_ret. }
  destruct (String.eqb name "search_surveys_by_question").
  { unfold search_surveys_by_question.
    destruct (search_conditions _) eqn:Hc; [apply emits_ret|].
    rewrite <- Hc.
    apply (emits_bind [_] []).
    - pose proof (emits_execute_query db
        (search_query
           (search_conditions
              (search_build (dict_get arguments "question_text")
                 (dict_get arguments "response_text")))
           (dict_get_default arguments "limit" (PyInt 50)))
        (Some (search_params
                 (search_build (dict_get arguments "question_text")
                    (dict_get arguments "response_text"))))) as H.
      now rewrite fetch_args_some in H.
    - intros results. apply emits_ret. }
  apply emits_ret.
Qed.

Lemma emits_read_resource_body (db : AlloyDBConnection) (uri : string) :
  emits (follows (resource_plan uri)) (read_resource_body contents_error db uri).
Proof.
  unfold read_resource_body, resource_plan.
  destruct (String.eqb uri "alloydb://surveys/statistics").
  { apply (emits_bind [_] []); [apply emits_get_survey_statistics|].
    intros stats. apply emits_lift. }
  destruct (String.eqb uri "alloydb://surveys/locations").
  { apply (emits_bind [_] []); [apply emits_get_locations|].
    intros locations. apply emits_lift. }
  destruct (String.eqb uri "alloydb://surveys/respondent-types").
  { apply (emits_bind [_] []); [apply emits_get_respondent_types|].
    intros types. apply emits_lift. }
  apply emits_raise.
Qed.

Lemma call_tool_runs (db_connection : option AlloyDBConnection) (name : string)
    (arguments : gmap string pyval) (tr : trace) :
  exists evs,
    snd (call_tool str_as_int validation_message db_connection name arguments tr)
    = tr ++ evs
    /\ runs (query_plan str_as_int validation_message name arguments) evs.
Proof.
  destruct db_connection as [db|].
  - unfold call_tool.
    apply emits_try_except; [reflexivity|apply emits_call_tool_body].
  - exists []. rewrite app_nil_r. split; [reflexivity|apply runs_nil].
Qed.

Lemma read_resource_runs (db_connection : option AlloyDBConnection)
    (uri : string) (tr : trace) :
  exists evs,
    snd (read_resource contents_error db_connection uri tr) = tr ++ evs
    /\ runs (resource_plan uri) evs.
Proof.
  destruct db_connection as [db|].
  - unfold read_resource.
    apply emits_try_except; [reflexivity|apply emits_read_resource_body].
  - exists []. rewrite app_nil_r. split; [reflexivity|apply runs_nil].
Qed.

Lemma query_plan_length (name : string) (arguments : gmap string pyval) :
  (length (query_plan str_as_int validation_message name arguments)
   <= if String.eqb name "get_survey_summary" then 3 else 1)%nat.
Proof.
  unfold query_plan.
  destruct (String.eqb name "fetch_survey_data") eqn:Hf.
  { apply String.eqb_eq in Hf. subst name. cbn [String.eqb Ascii.eqb Bool.eqb].
    destruct (SurveyQueryParams_init _ _ _); cbn; lia. }
  destruct (String.eqb name "get_survey_summary"); [cbn; lia|].
  destruct (String.eqb name "search_surveys_by_question"); [|cbn; lia].
  destruct (search_conditions _); cbn; lia.
Qed.

(** X1. The database events of every operation call and resource read
    are a run over the operation's queries: they are executed in order,
    each over a connection of its own that is closed before the next is
    opened, and nothing follows a connect that failed.  A call makes at
    most three round trips for [get_survey_summary] and at most one
    otherwise; a resource read makes at most one. *)
Theorem operations_run_their_plan (db_connection : option AlloyDBConnection)
    (name uri : string) (arguments : gmap string pyval) (tr : trace) :
  (exists evs n,
     snd (call_tool str_as_int validation_message db_connection name arguments tr)
     = tr ++ evs
     /\ runs (query_plan str_as_int validation_message name arguments) evs
     /\ round_trips evs = Some n
     /\ (n <= if String.eqb name "get_survey_summary" then 3 else 1)%nat)
  /\ (exists evs n,
        snd (read_resource contents_error db_connection uri tr) = tr ++ evs
        /\ runs (resource_plan uri) evs
        /\ round_trips evs = Some n
        /\ (n <= 1)%nat).
Proof.
  split.
  - destruct (call_tool_runs db_connection name arguments tr) as (evs & Htr & Hrun).
    destruct (runs_round_trips _ _ Hrun) as (n & Hn & Hle).
    exists evs, n. repeat split; try assumption.
    etransitivity; [exact Hle|apply query_plan_length].
  - destruct (read_resource_runs db_connection uri tr) as (evs & Htr & Hrun).
    destruct (runs_round_trips _ _ Hrun) as (n & Hn & Hle).
    exists evs, n. repeat split; try assumption.
    etransitivity; [exact Hle|].
    unfold resource_plan.
    repeat match goal with |- context [if ?c then _ else _] => destruct c end;
      cbn; lia.
Qed.

End PlanFollowed.

(** ** Placeholders of every executed query *)

Lemma no_dollar_app (a b : string) :
  no_dollar a = true -> no_dollar b = true -> no_dollar (a +:+ b) = true.
Proof.
  induction a as [|c a IH]; [auto|].
  change (String c a +:+ b) with (String c (a +:+ b)). cbn [no_dollar].
  intros [Hc Ha]%andb_true_iff Hb. rewrite Hc. cbn. auto.
Qed.

Lemma survey_query_well_bound (sid : option Z) (loc df dt rt : option string)
    (n : Z) :
  well_bound (get_survey_data_query sid loc df dt rt n).
Proof.
  unfold well_bound. rewrite get_survey_data_query_refines.
  unfold built_query_spec. cbn [fst snd]. rewrite length_map.
  rewrite <- (string_app_assoc select_surveys), placeholders_order_limit.
  unfold effective_filters, declared_filters. cbn [List.filter fst snd].
  destruct (takes_effect (opt_int sid)), (takes_effect (opt_str loc)),
    (takes_effect (opt_str df)), (takes_effect (opt_str dt)),
    (takes_effect (opt_str rt)); vm_compute; reflexivity.
Qed.

Lemma search_query_split (conditions : list string) (limit : pyval) :
  search_query conditions limit
  = search_head conditions +:+ py_str limit +:+ search_tail.
Proof.
  unfold search_query, search_head, search_tail.
  rewrite !string_app_assoc. reflexivity.
Qed.

Lemma search_query_well_bound (question_text response_text : pyval) (n : Z) :
  well_bound
    (search_query (search_conditions (search_build question_text response_text))
       (PyInt n),
     search_params (search_build question_text response_text)).
Proof.
  unfold well_bound. cbn [fst snd]. rewrite search_query_split.
  assert (Hopen : ends_open
            (search_head (search_conditions
               (search_build question_text response_text))) = false).
  { unfold search_head. rewrite <- !string_app_assoc.
    rewrite ends_open_app_cons. reflexivity. }
  rewrite (placeholders_app _ _ Hopen).
  rewrite (placeholders_no_dollar (py_str (PyInt n) +:+ search_tail))
    by (apply no_dollar_app; [apply no_dollar_str_int|reflexivity]).
  rewrite app_nil_r. unfold search_build.
  destruct (truthy question_text), (truthy response_text);
    vm_compute; reflexivity.
Qed.

Lemma runs_fetch_well_bound (plan : list (string * list pyval))
    (evs : list event) :
  Forall well_bound plan -> runs plan evs -> Forall fetch_well_bound evs.
Proof.
  revert evs. induction plan as [|[query args] plan IH]; intros evs Hwb Hrun.
  - destruct Hrun as [->|[]]. constructor.
  - inversion Hwb as [|? ? Hq Hrest]; subst.
    destruct Hrun as [->|[->|(evs' & -> & Hrun)]].
    + constructor.
    + repeat constructor.
    + constructor; [exact I|]. constructor; [exact Hq|].
      constructor; [exact I|]. now apply IH.
Qed.

Section WellBound.

Variable str_as_int : string -> option Z.
Variable validation_message : gmap string pyval -> string.
Variable contents_error : list TextContent -> string.

Lemma query_plan_well_bound (name : string) (arguments : gmap string pyval) :
  (String.eqb name "search_surveys_by_question" = true ->
   exists n, dict_get_default arguments "limit" (PyInt 50) = PyInt n) ->
  Forall well_bound (query_plan str_as_int validation_message name arguments).
Proof.
  intros Hlimit. unfold query_plan.
  destruct (String.eqb name "fetch_survey_data").
  { destruct (SurveyQueryParams_init _ _ _); repeat constructor.
    apply survey_query_well_bound. }
  destruct (String.eqb name "get_survey_summary").
  { repeat constructor; vm_compute; reflexivity. }
  destruct (String.eqb name "search_surveys_by_question"); [|constructor].
  destruct (Hlimit eq_refl) as [n ->].
  destruct (search_conditions _) eqn:Hc; [constructor|].
  rewrite <- Hc. repeat constructor. apply search_query_well_bound.
Qed.

Lemma resource_plan_well_bound (uri : string) :
  Forall well_bound (resource_plan uri).
Proof.
  unfold resource_plan.
  repeat match goal with |- context [if ?c then _ else _] => destruct c end;
    repeat constructor; vm_compute; reflexivity.
Qed.

(** X2. Every query that an operation call or a resource read sends to
    the database carries exactly the placeholders [$1] ... [$n] for the
    [n] arguments sent with it.  For the search operation this needs the
    limit to be an integer, since it is formatted into the text. *)
Theorem executed_queries_are_well_bound (db_connection : option AlloyDBConnection)
    (name uri : string) (arguments : gmap string pyval) (tr : trace)
    (evs evs' : list event) :
  (String.eqb name "search_surveys_by_question" = true ->
   exists n, dict_get_default arguments "limit" (PyInt 50) = PyInt n) ->
  snd (call_tool str_as_int validation_message db_connection name arguments tr)
  = tr ++ evs ->
  snd (read_resource contents_error db_connection uri tr) = tr ++ evs' ->
  Forall fetch_well_bound evs /\ Forall fetch_well_bound evs'.
Proof.
  intros Hlimit Hcall Hread. split.
  - destruct (call_tool_runs str_as_int validation_message db_connection name
                arguments tr) as (evs0 & Htr & Hrun).
    rewrite Hcall in Htr. apply app_inv_head in Htr. subst evs0.
    eapply runs_fetch_well_bound; [|exact Hrun].
    now apply query_plan_well_bound.
  - destruct (read_resource_runs contents_error db_connection uri tr)
      as (evs0 & Htr & Hrun).
    rewrite Hread in Htr. apply app_inv_head in Htr. subst evs0.
    eapply runs_fetch_well_bound; [|exact Hrun].
    apply resource_plan_well_bound.
Qed.

End WellBound.

Lemma executed_queries_are_well_bound_witness :
  Forall fetch_well_bound
    [EvAcquire;
     EvFetch (search_query ["questions_responses::text ILIKE $1";
                            "questions_responses::text ILIKE $2"] (PyInt 5))
       [PyStr "%water%"; PyStr "%yes%"];
     EvClose]
  /\ Forall fetch_well_bound
       [EvAcquire;
        EvFetch "SELECT DISTINCT location FROM surveys WHERE location IS NOT NULL ORDER BY location" [];
        EvClose].
Proof.
  apply (executed_queries_are_well_bound no_str_as_int plain_validation_message
           plain_contents_error
           (Some sample_db) "search_surveys_by_question"
           "alloydb://surveys/locations"
           (<[ "limit" := PyInt 5 ]>
              (<[ "response_text" := PyStr "yes" ]>
                 {[ "question_text" := PyStr "water" ]})) []).
  - intros _. exists 5. reflexivity.
  - vm_compute. reflexivity.
  - vm_compute. reflexivity.
Defined.

(** ** Failures around the connection *)

(** X3. When the connector cannot produce a connection, [execute_query]
    raises the connector's exception as it is: no fetch is attempted and
    nothing is closed, since nothing was acquired. *)
Theorem execute_query_connect_failure (d : driver) (query : string)
    (params : option (list pyval)) (tr : trace) (e : exn) :
  drv_connect d tr = Some e ->
  execute_query {| _getconn := Some d |} query params tr
  = (Raise e, tr ++ [EvConnectFailed]).
Proof.
  intros Hc. unfold execute_query, bind, getconn. cbn [_getconn].
  rewrite Hc. reflexivity.
Qed.

Lemma execute_query_connect_failure_witness :
  execute_query
    {| _getconn := Some (unreachable (Exception "ConnectionError" "no route")) |}
    stats_query None []
  = (Raise (Exception "ConnectionError" "no route"), [EvConnectFailed]).
Proof.
  apply (execute_query_connect_failure
           (unreachable (Exception "ConnectionError" "no route"))
           stats_query None [] (Exception "ConnectionError" "no route")).
  reflexivity.
Defined.

(** X4. When closing the connection fails, the exception of the close
    is the outcome of [execute_query], whatever the fetch did: rows that
    were fetched are lost, and a query error is replaced. *)
Theorem execute_query_close_failure (d : driver) (query : string)
    (params : option (list pyval)) (tr : trace) (e : exn) :
  drv_connect d tr = None ->
  drv_close d (tr ++ [EvAcquire; EvFetch query (fetch_args params)]) = Some e ->
  execute_query {| _getconn := Some d |} query params tr
  = (Raise e, tr ++ [EvAcquire; EvFetch query (fetch_args params); EvClose]).
Proof.
  intros Hc Hclose. rewrite (execute_query_run _ _ _ _ Hc), Hclose. reflexivity.
Qed.

Lemma execute_query_close_failure_witness :
  execute_query
    {| _getconn := Some
         {| drv_connect := fun _ => None;
            drv_fetch := fun _ _ _ => Ok [[("location", PyStr "Springfield")]];
            drv_close := fun _ => Some (Exception "InterfaceError" "connection lost") |} |}
    "SELECT 1" None []
  = (Raise (Exception "InterfaceError" "connection lost"),
     [EvAcquire; EvFetch "SELECT 1" []; EvClose]).
Proof.
  apply (execute_query_close_failure
           {| drv_connect := fun _ => None;
              drv_fetch := fun _ _ _ => Ok [[("location", PyStr "Springfield")]];
              drv_close := fun _ => Some (Exception "InterfaceError" "connection lost") |}
           "SELECT 1" None [] (Exception "InterfaceError" "connection lost"));
    reflexivity.
Defined.

Section NotInitialized.

Variable str_as_int : string -> option Z.
Variable validation_message : gmap string pyval -> string.

(** X5. On an object that was constructed but not initialised, every
    method of the data access layer raises [RuntimeError] without an
    event, and every operation call that needs the database answers
    "Error: Database connection not initialized", the text [call_tool]
    gives when there is no object at all. *)
Theorem not_initialized_object (query : string) (params : option (list pyval))
    (sid : option Z) (loc df dt rt : option string) (n : Z)
    (name : string) (arguments : gmap string pyval) (tr : trace) :
  let db := {| _getconn := None |} in
  let e := Exception "RuntimeError" "Database connection not initialized" in
  execute_query db query params tr = (Raise e, tr)
  /\ get_survey_data db sid loc df dt rt n tr = (Raise e, tr)
  /\ get_survey_statistics db tr = (Raise e, tr)
  /\ get_locations db tr = (Raise e, tr)
  /\ get_respondent_types db tr = (Raise e, tr)
  /\ match query_plan str_as_int validation_message name arguments with
     | [] => True
     | _ :: _ =>
         call_tool str_as_int validation_message (Some db) name arguments tr
         = (Ok (tool_text (Plain "Error: Database connection not initialized")),
            tr)
     end.
Proof.
  cbv zeta. do 5 (split; [reflexivity|]).
  - unfold query_plan, call_tool, call_tool_body, try_except.
    destruct (String.eqb name "fetch_survey_data").
    { unfold fetch_survey_data, bind, lift.
      destruct (SurveyQueryParams_init _ _ _); [reflexivity|exact I]. }
    destruct (String.eqb name "get_survey_summary"); [reflexivity|].
    destruct (String.eqb name "search_surveys_by_question"); [|exact I].
    unfold search_surveys_by_question.
    destruct (search_conditions _); [exact I|reflexivity].
Qed.

End NotInitialized.

(** ** Columns of the distinct-value queries *)

Lemma column_single (key : string) (rows : list row) (tr : trace) :
  Forall (fun r : row => map fst r = [key]) rows ->
  exists vs, column key rows tr = (Ok vs, tr)
             /\ Forall2 (fun (r : row) v => r = [(key, v)]) rows vs.
Proof.
  induction 1 as [|r rows Hr Hrows (vs & Hvs & Hall)].
  - exists []. split; [reflexivity|constructor].
  - destruct r as [|[k v] [|? ?]]; try discriminate.
    injection Hr as ->.
    exists (v :: vs). split.
    + cbn [column]. unfold bind, getitem. cbn [List.find fst snd].
      rewrite String.eqb_refl. cbn. rewrite Hvs. reflexivity.
    + now constructor.
Qed.

Lemma find_key_in (key : string) (r : row) (kv : string * pyval) :
  List.find (fun kv => String.eqb (fst kv) key) r = Some kv ->
  In key (map fst r).
Proof.
  intros H. apply find_some in H as [Hin Heq].
  apply String.eqb_eq in Heq. subst key. now apply in_map.
Qed.

Lemma column_missing (key : string) (rows : list row) (tr : trace) :
  Exists (fun r : row => ~ In key (map fst r)) rows ->
  column key rows tr = (Raise (Exception "KeyError" ("'" +:+ key +:+ "'")), tr).
Proof.
  induction rows as [|r rows IH]; intros Hex; [inversion Hex|].
  cbn [column]. unfold bind at 1, getitem.
  destruct (List.find _ r) as [kv|] eqn:Hfind; [|reflexivity].
  cbn. inversion Hex as [? ? Hr|? ? Hrest]; subst.
  - exfalso. apply Hr. eapply find_key_in; eassumption.
  - unfold bind. rewrite (IH Hrest). reflexivity.
Qed.

(** X6. Against a driver that connects, closes and keys rows by the
    select list, [get_locations] and [get_respondent_types] return the
    single cell of every row, in row order and one per row; no
    [KeyError] can arise. *)
Theorem distinct_values_in_row_order (d : driver) (tr : trace)
    (locations types : list row) :
  reliable d -> faithful d ->
  drv_fetch d (tr ++ [EvAcquire])
    "SELECT DISTINCT location FROM surveys WHERE location IS NOT NULL ORDER BY location"
    [] = Ok locations ->
  drv_fetch d (tr ++ [EvAcquire])
    "SELECT DISTINCT respondent_type FROM surveys WHERE respondent_type IS NOT NULL ORDER BY respondent_type"
    [] = Ok types ->
  (exists vs,
     get_locations {| _getconn := Some d |} tr
     = (Ok vs,
        tr ++ [EvAcquire;
               EvFetch "SELECT DISTINCT location FROM surveys WHERE location IS NOT NULL ORDER BY location" [];
               EvClose])
     /\ Forall2 (fun (r : row) v => r = [("location", v)]) locations vs)
  /\ (exists vs,
        get_respondent_types {| _getconn := Some d |} tr
        = (Ok vs,
           tr ++ [EvAcquire;
                  EvFetch "SELECT DISTINCT respondent_type FROM surveys WHERE respondent_type IS NOT NULL ORDER BY respondent_type" [];
                  EvClose])
        /\ Forall2 (fun (r : row) v => r = [("respondent_type", v)]) types vs).
Proof.
  intros [Hconn Hclose] Hfaith Hloc Htypes. split.
  - apply Hfaith in Hloc as Hkeys.
    destruct (column_single "location" locations
                (tr ++ [EvAcquire;
                        EvFetch "SELECT DISTINCT location FROM surveys WHERE location IS NOT NULL ORDER BY location" [];
                        EvClose]) Hkeys) as (vs & Hvs & Hall).
    exists vs. split; [|exact Hall].
    unfold get_locations, bind.
    rewrite (execute_query_run _ _ _ _ (Hconn tr)), Hclose.
    cbn [fetch_args]. rewrite Hloc. exact Hvs.
  - apply Hfaith in Htypes as Hkeys.
    destruct (column_single "respondent_type" types
                (tr ++ [EvAcquire;
                        EvFetch "SELECT DISTINCT respondent_type FROM surveys WHERE respondent_type IS NOT NULL ORDER BY respondent_type" [];
                        EvClose]) Hkeys) as (vs & Hvs & Hall).
    exists vs. split; [|exact Hall].
    unfold get_respondent_types, bind.
    rewrite (execute_query_run _ _ _ _ (Hconn tr)), Hclose.
    cbn [fetch_args]. rewrite Htypes. exact Hvs.
Qed.

Lemma distinct_values_in_row_order_witness :
  (exists vs,
     get_locations {| _getconn := Some one_null_row |} []
     = (Ok vs,
        [EvAcquire;
         EvFetch "SELECT DISTINCT location FROM surveys WHERE location IS NOT NULL ORDER BY location" [];
         EvClose])
     /\ Forall2 (fun (r : row) v => r = [("location", v)])
          [[("location", PyNone)]] vs)
  /\ (exists vs,
        get_respondent_types {| _getconn := Some one_null_row |} []
        = (Ok vs,
           [EvAcquire;
            EvFetch "SELECT DISTINCT respondent_type FROM surveys WHERE respondent_type IS NOT NULL ORDER BY respondent_type" [];
            EvClose])
        /\ Forall2 (fun (r : row) v => r = [("respondent_type", v)])
             [[("respondent_type", PyNone)]] vs).
Proof.
  apply (distinct_values_in_row_order one_null_row []
           [[("location", PyNone)]] [[("respondent_type", PyNone)]]).
  - split; intros tr; reflexivity.
  - apply faithful_one_null_row.
  - vm_compute. reflexivity.
  - vm_compute. reflexivity.
Defined.

(** X7. When a returned row has no [location] key, [get_locations]
    raises [KeyError] with the text ['location'] after the round trip
    is over: the connection was acquired, queried and closed. *)
Theorem locations_missing_key (d : driver) (tr : trace) (rows : list row) :
  drv_connect d tr = None ->
  drv_close d
    (tr ++ [EvAcquire;
            EvFetch "SELECT DISTINCT location FROM surveys WHERE location IS NOT NULL ORDER BY location" []])
  = None ->
  drv_fetch d (tr ++ [EvAcquire])
    "SELECT DISTINCT location FROM surveys WHERE location IS NOT NULL ORDER BY location"
    [] = Ok rows ->
  Exists (fun r : row => ~ In "location" (map fst r)) rows ->
  get_locations {| _getconn := Some d |} tr
  = (Raise (Exception "KeyError" "'location'"),
     tr ++ [EvAcquire;
            EvFetch "SELECT DISTINCT location FROM surveys WHERE location IS NOT NULL ORDER BY location" [];
            EvClose]).
Proof.
  intros Hconn Hclose Hfetch Hex.
  unfold get_locations, bind.
  rewrite (execute_query_run _ _ _ _ Hconn). cbn [fetch_args].
  rewrite Hclose, Hfetch. now apply column_missing.
Qed.

Lemma locations_missing_key_witness :
  get_locations {| _getconn := Some (answering (Ok [[("place", PyStr "Springfield")]])) |} []
  = (Raise (Exception "KeyError" "'location'"),
     [EvAcquire;
      EvFetch "SELECT DISTINCT location FROM surveys WHERE location IS NOT NULL ORDER BY location" [];
      EvClose]).
Proof.
  apply (locations_missing_key
           (answering (Ok [[("place", PyStr "Springfield")]])) []
           [[("place", PyStr "Springfield")]]); try reflexivity.
  constructor. cbn. intros [H|[]]. discriminate.
Defined.

(** ** What the operations answer *)

Section Answers.

Variable str_as_int : string -> option Z.
Variable validation_message : gmap string pyval -> string.

(** X8. When the arguments validate and the connection, the fetch and
    the close succeed, [fetch_survey_data] executes the one query built
    from the validated arguments and answers with the rows of the
    driver, unchanged and in order, and their number as [count]. *)
Theorem fetch_survey_data_answers_rows (d : driver)
    (arguments : gmap string pyval) (tr : trace) (p : SurveyQueryParams)
    (rows : list row) :
  let q := get_survey_data_query (survey_id p) (location p) (date_from p)
             (date_to p) (respondent_type p) (limit p) in
  SurveyQueryParams_init str_as_int validation_message arguments = Ok p ->
  drv_connect d tr = None ->
  drv_fetch d (tr ++ [EvAcquire]) (fst q) (snd q) = Ok rows ->
  drv_close d (tr ++ [EvAcquire; EvFetch (fst q) (snd q)]) = None ->
  call_tool str_as_int validation_message (Some {| _getconn := Some d |})
    "fetch_survey_data" arguments tr
  = (Ok (tool_text (JsonDumps (JObj
       [("count", JVal (PyInt (Z.of_nat (length rows))));
        ("surveys", JList (map row_json rows))]))),
     tr ++ [EvAcquire; EvFetch (fst q) (snd q); EvClose]).
Proof.
  intros q Hp Hconn Hfetch Hclose.
  rewrite call_tool_fetch. unfold try_except, fetch_survey_data, bind at 1, lift.
  rewrite Hp. unfold bind, get_survey_data. fold q.
  rewrite (execute_query_run _ _ _ _ Hconn), fetch_args_some, Hclose, Hfetch.
  reflexivity.
Qed.

Lemma count_is_length_plain (s : string) : count_is_length (tool_text (Plain s)).
Proof. intros n key items H. discriminate. Qed.

Lemma count_is_length_rows (key : string) (rows : list row) :
  count_is_length (tool_text (JsonDumps (JObj
    [("count", JVal (PyInt (Z.of_nat (length rows))));
     (key, JList (map row_json rows))]))).
Proof. intros n k items [= <- _ <-]. now rewrite length_map. Qed.

(** X9. In every answer of [call_tool] that is an object of a [count]
    and a list (the answers of [fetch_survey_data] and
    [search_surveys_by_question]), the count is the length of the
    list. *)
Theorem response_count_is_length (db_connection : option AlloyDBConnection)
    (name : string) (arguments : gmap string pyval) (tr : trace)
    (res : CallToolResult) (n : Z) (key : string) (items : list json) :
  fst (call_tool str_as_int validation_message db_connection name arguments tr)
  = Ok res ->
  content res =
    [ {| type := "text";
         text := JsonDumps (JObj [("count", JVal (PyInt n)); (key, JList items)]) |} ] ->
  n = Z.of_nat (length items).
Proof.
  intros Hres. revert n key items. change (count_is_length res).
  destruct db_connection as [db|].
  2: { injection Hres as <-. apply count_is_length_plain. }
  pose proof (try_except_recovered count_is_length
                (call_tool_body str_as_int validation_message db name arguments)
                (fun e => ret (tool_text (Plain ("Error: " +:+ exn_str e)))))
    as Hrec.
  unfold call_tool in Hres.
  specialize (fun Hm Hh => Hrec Hm Hh tr). rewrite Hres in Hrec. apply Hrec.
  - unfold call_tool_body.
    destruct (String.eqb name "fetch_survey_data").
    { unfold fetch_survey_data.
      apply ok_sat_bind; intros p. apply ok_sat_bind; intros surveys.
      apply ok_sat_ret, count_is_length_rows. }
    destruct (String.eqb name "get_survey_summary").
    { unfold get_survey_summary. do 3 (apply ok_sat_bind; intros ?).
      apply ok_sat_ret. intros ? ? ? H. discriminate. }
    destruct (String.eqb name "search_surveys_by_question").
    { unfold search_surveys_by_question.
      destruct (search_conditions _).
      - apply ok_sat_ret, count_is_length_plain.
      - apply ok_sat_bind; intros results.
        apply ok_sat_ret, count_is_length_rows. }
    apply ok_sat_ret, count_is_length_plain.
  - intros e tr'. eexists. split; [reflexivity|apply count_is_length_plain].
Qed.

End Answers.

Lemma fetch_survey_data_answers_rows_witness :
  call_tool no_str_as_int plain_validation_message
    (Some {| _getconn := Some (answering (Ok [[("survey_id", PyInt 42)]])) |})
    "fetch_survey_data" {[ "survey_id" := PyInt 42 ]} []
  = (Ok (tool_text (JsonDumps (JObj
       [("count", JVal (PyInt 1));
        ("surveys", JList [JObj [("survey_id", JVal (PyInt 42))]])]))),
     [EvAcquire;
      EvFetch (select_surveys +:+ " AND survey_id = $1"
                 +:+ " ORDER BY survey_date DESC LIMIT 100") [PyInt 42];
      EvClose]).
Proof.
  apply (fetch_survey_data_answers_rows no_str_as_int plain_validation_message
           (answering (Ok [[("survey_id", PyInt 42)]]))
           {[ "survey_id" := PyInt 42 ]} []
           {| survey_id := Some 42; location := None; date_from := None;
              date_to := None; respondent_type := None; limit := 100 |}
           [[("survey_id", PyInt 42)]]); reflexivity.
Defined.

Lemma response_count_is_length_witness :
  2 = Z.of_nat (length [row_json [("survey_id", PyInt 1)];
                        row_json [("survey_id", PyInt 2)]]).
Proof.
  apply (response_count_is_length no_str_as_int plain_validation_message
           (Some {| _getconn := Some (answering
              (Ok [[("survey_id", PyInt 1)]; [("survey_id", PyInt 2)]])) |})
           "search_surveys_by_question" {[ "response_text" := PyStr "yes" ]} []
           (tool_text (JsonDumps (JObj
              [("count", JVal (PyInt 2));
               ("matching_surveys",
                JList [row_json [("survey_id", PyInt 1)];
                       row_json [("survey_id", PyInt 2)]])])))
           2 "matching_surveys");
    reflexivity.
Defined.

Section Summary.

Variable str_as_int : string -> option Z.
Variable validation_message : gmap string pyval -> string.

Lemma call_tool_summary (db : AlloyDBConnection) (arguments : gmap string pyval) :
  call_tool str_as_int validation_message (Some db) "get_survey_summary" arguments
  = try_except (get_survey_summary db)
      (fun e => ret (tool_text (Plain ("Error: " +:+ exn_str e)))).
Proof. reflexivity. Qed.

Lemma get_survey_summary_shape (db : AlloyDBConnection) :
  ok_sat (fun r => exists stats locations types,
            r = summary_response stats locations types)
    (get_survey_summary db).
Proof.
  unfold get_survey_summary.
  apply ok_sat_bind; intros stats. apply ok_sat_bind; intros locations.
  apply ok_sat_bind; intros types. apply ok_sat_ret. eauto.
Qed.

(** X10. [get_survey_summary] answers all or nothing: its answer is
    either an error text, or the object of statistics, locations and
    respondent types, and then exactly the three queries were executed,
    in that order, each over its own connection. *)
Theorem summary_all_or_nothing (db : AlloyDBConnection)
    (arguments : gmap string pyval) (tr : trace) (res : CallToolResult) :
  fst (call_tool str_as_int validation_message (Some db) "get_survey_summary"
         arguments tr) = Ok res ->
  (exists msg, res = tool_text (Plain ("Error: " +:+ msg)))
  \/ (exists stats locations types,
        res = summary_response stats locations types
        /\ snd (call_tool str_as_int validation_message (Some db)
                  "get_survey_summary" arguments tr)
           = tr ++ [EvAcquire; EvFetch stats_query []; EvClose;
                    EvAcquire;
                    EvFetch "SELECT DISTINCT location FROM surveys WHERE location IS NOT NULL ORDER BY location" [];
                    EvClose;
                    EvAcquire;
                    EvFetch "SELECT DISTINCT respondent_type FROM surveys WHERE respondent_type IS NOT NULL ORDER BY respondent_type" [];
                    EvClose]).
Proof.
  rewrite call_tool_summary. unfold try_except.
  pose proof (get_survey_summary_shape db tr) as Hshape.
  destruct (emits_call_tool_body str_as_int validation_message db
              "get_survey_summary" arguments tr) as (evs & Htr & _ & Hall).
  change (call_tool_body str_as_int validation_message db "get_survey_summary"
            arguments) with (get_survey_summary db) in Htr, Hall.
  destruct (get_survey_summary db tr) as [[r|e] tr'];
    cbn [fst snd] in *.
  - intros [= <-]. right. destruct Hshape as (stats & locations & types & ->).
    exists stats, locations, types. split; [reflexivity|].
    subst. reflexivity.
  - destruct (is_Exception e); [|discriminate].
    intros [= <-]. left. eauto.
Qed.

(** X11. When the statistics query fails, [get_survey_summary] stops:
    the locations and respondent types queries are not attempted, and
    the answer is the text of that failure. *)
Theorem summary_stops_at_first_failure (d : driver)
    (arguments : gmap string pyval) (tr : trace) (e : exn) :
  drv_connect d tr = None ->
  drv_fetch d (tr ++ [EvAcquire]) stats_query [] = Raise e ->
  is_Exception e = true ->
  drv_close d (tr ++ [EvAcquire; EvFetch stats_query []]) = None ->
  call_tool str_as_int validation_message (Some {| _getconn := Some d |})
    "get_survey_summary" arguments tr
  = (Ok (tool_text (Plain ("Error: " +:+ exn_str e))),
     tr ++ [EvAcquire; EvFetch stats_query []; EvClose]).
Proof.
  intros Hconn Hfetch He Hclose.
  rewrite call_tool_summary.
  unfold try_except, get_survey_summary, bind at 1, get_survey_statistics,
    bind at 1.
  rewrite (execute_query_run _ _ _ _ Hconn). cbn [fetch_args].
  rewrite Hclose, Hfetch, He. reflexivity.
Qed.

(** X12. With a connection function in place, a search reaches the
    database exactly when at least one of the two texts is truthy: the
    trace is left unchanged if and only if both are absent or falsy. *)
Theorem search_reaches_database_iff (d : driver)
    (arguments : gmap string pyval) (tr : trace) :
  snd (call_tool str_as_int validation_message (Some {| _getconn := Some d |})
         "search_surveys_by_question" arguments tr) = tr
  <-> truthy (dict_get arguments "question_text") = false
      /\ truthy (dict_get arguments "response_text") = false.
Proof.
  rewrite call_tool_search, snd_try_except by reflexivity.
  unfold search_surveys_by_question, search_build.
  destruct (truthy (dict_get arguments "question_text")),
    (truthy (dict_get arguments "response_text"));
    cbn [search_conditions add_condition app];
    (split; [|intros [? ?]; try discriminate; reflexivity]);
    try (intros _; split; reflexivity);
    rewrite snd_bind_ret;
    (destruct (drv_connect d tr) as [e|] eqn:Hc;
     [unfold execute_query, bind, getconn; cbn [_getconn]; rewrite Hc
     |rewrite (execute_query_run _ _ _ _ Hc)]);
    cbn [snd]; intros H; rewrite <- (app_nil_r tr) in H at 2;
    apply app_inv_head in H; discriminate.
Qed.

End Summary.

Lemma summary_all_or_nothing_witness :
  (exists msg, summary_response [] [] [] = tool_text (Plain ("Error: " +:+ msg)))
  \/ (exists stats locations types,
        summary_response [] [] [] = summary_response stats locations types
        /\ snd (call_tool no_str_as_int plain_validation_message (Some sample_db)
                  "get_survey_summary" ∅ [])
           = [] ++ [EvAcquire; EvFetch stats_query []; EvClose;
                    EvAcquire;
                    EvFetch "SELECT DISTINCT location FROM surveys WHERE location IS NOT NULL ORDER BY location" [];
                    EvClose;
                    EvAcquire;
                    EvFetch "SELECT DISTINCT respondent_type FROM surveys WHERE respondent_type IS NOT NULL ORDER BY respondent_type" [];
                    EvClose]).
Proof.
  apply (summary_all_or_nothing no_str_as_int plain_validation_message
           sample_db ∅ [] (summary_response [] [] [])).
  reflexivity.
Defined.

Lemma summary_stops_at_first_failure_witness :
  call_tool no_str_as_int plain_validation_message
    (Some {| _getconn := Some (answering
       (Raise (Exception "UndefinedTableError" "relation surveys does not exist"))) |})
    "get_survey_summary" ∅ []
  = (Ok (tool_text (Plain "Error: relation surveys does not exist")),
     [EvAcquire; EvFetch stats_query []; EvClose]).
Proof.
  apply (summary_stops_at_first_failure no_str_as_int plain_validation_message
           (answering
              (Raise (Exception "UndefinedTableError" "relation surveys does not exist")))
           ∅ [] (Exception "UndefinedTableError" "relation surveys does not exist"));
    reflexivity.
Defined.

(** ** Arguments and catalogs *)

Section Arguments.

Variable str_as_int : string -> option Z.
Variable validation_message : gmap string pyval -> string.

(** X13. Validation undoes the spelling out of a parameter set: the
    mapping with a key for every field that is set, and the limit,
    validates to that very parameter set. *)
Theorem SurveyQueryParams_round_trip (p : SurveyQueryParams) :
  SurveyQueryParams_init str_as_int validation_message (to_arguments p) = Ok p.
Proof.
  destruct p as [[i|] [l|] [f|] [t|] [r|] n]; reflexivity.
Qed.

Lemma SurveyQueryParams_init_agree (a1 a2 : gmap string pyval)
    (p : SurveyQueryParams) :
  Forall (fun key => a1 !! key = a2 !! key)
    ["survey_id"; "location"; "date_from"; "date_to"; "respondent_type"; "limit"] ->
  SurveyQueryParams_init str_as_int validation_message a1 = Ok p ->
  SurveyQueryParams_init str_as_int validation_message a2 = Ok p.
Proof.
  intros Hkeys.
  repeat match goal with
         | H : Forall _ (_ :: _) |- _ =>
             let Hk := fresh "Hk" in
             apply Forall_cons in H as [Hk H]
         end.
  unfold SurveyQueryParams_init.
  rewrite <- Hk, <- Hk0, <- Hk1, <- Hk2, <- Hk3, <- Hk4.
  destruct (optional_field _ (a1 !! "survey_id")); [|discriminate].
  destruct (optional_field _ (a1 !! "location")); [|discriminate].
  destruct (optional_field _ (a1 !! "date_from")); [|discriminate].
  destruct (optional_field _ (a1 !! "date_to")); [|discriminate].
  destruct (optional_field _ (a1 !! "respondent_type")); [|discriminate].
  destruct (default_field _ _ (a1 !! "limit")); [|discriminate].
  auto.
Qed.

Lemma call_tool_fetch_validated (db : AlloyDBConnection)
    (arguments : gmap string pyval) (p : SurveyQueryParams) (tr : trace) :
  SurveyQueryParams_init str_as_int validation_message arguments = Ok p ->
  call_tool str_as_int validation_message (Some db) "fetch_survey_data"
    arguments tr
  = try_except
      (surveys <- get_survey_data db (survey_id p) (location p) (date_from p)
                    (date_to p) (respondent_type p) (limit p) ;;
       ret (tool_text (JsonDumps (JObj
         [("count", JVal (PyInt (Z.of_nat (length surveys))));
          ("surveys", JList (map row_json surveys))]))))
      (fun e => ret (tool_text (Plain ("Error: " +:+ exn_str e)))) tr.
Proof.
  intros Hp. rewrite call_tool_fetch.
  unfold try_except, fetch_survey_data, bind at 1, lift. rewrite Hp. reflexivity.
Qed.

Lemma search_agree (db : AlloyDBConnection) (a1 a2 : gmap string pyval) :
  a1 !! "question_text" = a2 !! "question_text" ->
  a1 !! "response_text" = a2 !! "response_text" ->
  a1 !! "limit" = a2 !! "limit" ->
  search_surveys_by_question db a1 = search_surveys_by_question db a2.
Proof.
  intros Hq Hr Hl. unfold search_surveys_by_question, dict_get, dict_get_default.
  now rewrite Hq, Hr, Hl.
Qed.

(** X14. The handlers read only the keys their tool advertises: two
    argument mappings that agree on the advertised properties of a
    listed tool get the same answer and cause the same events, whatever
    else they hold.  For [fetch_survey_data] this is stated for
    arguments that validate. *)
Theorem unadvertised_arguments_are_ignored (db : AlloyDBConnection)
    (t : Catalog.Tool) (a1 a2 : gmap string pyval) (tr : trace) :
  In t Catalog.list_tools ->
  Forall (fun key => a1 !! key = a2 !! key) (advertised_keys t) ->
  (Catalog.tool_name t = "fetch_survey_data" ->
   exists p, SurveyQueryParams_init str_as_int validation_message a1 = Ok p) ->
  call_tool str_as_int validation_message (Some db) (Catalog.tool_name t) a1 tr
  = call_tool str_as_int validation_message (Some db) (Catalog.tool_name t) a2 tr.
Proof.
  intros Hin Hkeys Hvalid.
  destruct Hin as [<-|[<-|[<-|[]]]]; cbn [Catalog.tool_name] in *.
  - destruct (Hvalid eq_refl) as [p Hp].
    rewrite (call_tool_fetch_validated db a1 p tr Hp).
    rewrite (call_tool_fetch_validated db a2 p tr); [reflexivity|].
    now apply (SurveyQueryParams_init_agree a1 a2).
  - reflexivity.
  - rewrite !call_tool_search.
    unfold advertised_keys in Hkeys. cbn in Hkeys.
    apply Forall_cons in Hkeys as [Hq Hkeys].
    apply Forall_cons in Hkeys as [Hr Hkeys].
    apply Forall_cons in Hkeys as [Hl _].
    now rewrite (search_agree db a1 a2 Hq Hr Hl).
Qed.

(** X15. The default a listed tool advertises for a property is the
    default its handler applies: leaving the key out gives the answer
    and the events that passing the advertised default gives.  For
    [fetch_survey_data] this is stated for arguments that validate. *)
Theorem advertised_default_is_applied (db : AlloyDBConnection)
    (name key : string) (dflt : pyval) (arguments : gmap string pyval)
    (tr : trace) :
  advertised_default name key = Some dflt ->
  arguments !! key = None ->
  (name = "fetch_survey_data" ->
   exists p, SurveyQueryParams_init str_as_int validation_message arguments = Ok p) ->
  call_tool str_as_int validation_message (Some db) name arguments tr
  = call_tool str_as_int validation_message (Some db) name
      (<[ key := dflt ]> arguments) tr.
Proof.
  intros Hadv Hnone Hvalid. unfold advertised_default in Hadv.
  cbn [Catalog.list_tools List.find Catalog.tool_name] in Hadv.
  destruct (String.eqb "fetch_survey_data" name) eqn:Hf.
  { apply String.eqb_eq in Hf. subst name.
    cbn [Catalog.inputSchema Catalog.properties List.find fst snd] in Hadv.
    repeat match type of Hadv with
           | context [String.eqb ?k key] =>
               destruct (String.eqb k key) eqn:?; [|cbn [List.find] in Hadv]
           end; try discriminate.
    apply String.eqb_eq in Heqb4. subst key. cbn in Hadv. injection Hadv as <-.
    destruct (Hvalid eq_refl) as [p Hp].
    rewrite (call_tool_fetch_validated db arguments p tr Hp).
    rewrite (call_tool_fetch_validated db _ p tr); [reflexivity|].
    revert Hp. unfold SurveyQueryParams_init.
    rewrite !lookup_insert_ne by discriminate.
    rewrite lookup_insert_eq, Hnone.
    destruct (optional_field _ (arguments !! "survey_id")); [|discriminate].
    destruct (optional_field _ (arguments !! "location")); [|discriminate].
    destruct (optional_field _ (arguments !! "date_from")); [|discriminate].
    destruct (optional_field _ (arguments !! "date_to")); [|discriminate].
    destruct (optional_field _ (arguments !! "respondent_type"));
      [|discriminate].
    intros Hp. exact Hp. }
  destruct (String.eqb "get_survey_summary" name) eqn:Hs.
  { cbn in Hadv. discriminate. }
  destruct (String.eqb "search_surveys_by_question" name) eqn:Hq;
    [|discriminate].
  apply String.eqb_eq in Hq. subst name.
  cbn [Catalog.inputSchema Catalog.properties List.find fst snd] in Hadv.
  repeat match type of Hadv with
         | context [String.eqb ?k key] =>
             destruct (String.eqb k key) eqn:?; [|cbn [List.find] in Hadv]
         end; try discriminate.
  apply String.eqb_eq in Heqb1. subst key. injection Hadv as <-.
  rewrite !call_tool_search.
  unfold search_surveys_by_question, dict_get, dict_get_default.
  rewrite !lookup_insert_ne by discriminate.
  rewrite lookup_insert_eq, Hnone. reflexivity.
Qed.

End Arguments.

Lemma unadvertised_arguments_are_ignored_witness :
  call_tool no_str_as_int plain_validation_message (Some sample_db)
    "search_surveys_by_question" {[ "question_text" := PyStr "water" ]} []
  = call_tool no_str_as_int plain_validation_message (Some sample_db)
      "search_surveys_by_question"
      (<[ "survey_id" := PyInt 7 ]> {[ "question_text" := PyStr "water" ]}) [].
Proof.
  apply (unadvertised_arguments_are_ignored no_str_as_int
           plain_validation_message sample_db
           (nth 2 Catalog.list_tools no_tool)
           {[ "question_text" := PyStr "water" ]}
           (<[ "survey_id" := PyInt 7 ]> {[ "question_text" := PyStr "water" ]})
           []).
  - right. right. left. reflexivity.
  - repeat constructor.
  - intros H. discriminate H.
Defined.

Lemma advertised_default_is_applied_witness :
  call_tool no_str_as_int plain_validation_message (Some sample_db)
    "fetch_survey_data" {[ "location" := PyStr "Springfield" ]} []
  = call_tool no_str_as_int plain_validation_message (Some sample_db)
      "fetch_survey_data"
      (<[ "limit" := PyInt 100 ]> {[ "location" := PyStr "Springfield" ]}) [].
Proof.
  apply (advertised_default_is_applied no_str_as_int plain_validation_message
           sample_db "fetch_survey_data" "limit" (PyInt 100)
           {[ "location" := PyStr "Springfield" ]} []).
  - reflexivity.
  - reflexivity.
  - intros _. eexists. reflexivity.
Defined.

Section Catalogs.

Variable str_as_int : string -> option Z.
Variable validation_message : gmap string pyval -> string.
Variable contents_error : list TextContent -> string.

(** X16. The catalogs and the dispatch agree.  A name that [list_tools]
    lists is dispatched to one of the three handlers, and any other
    name is answered "Error: Unknown tool '<name>'" without an event; for
    a resource that [list_resources] lists, the [try] of [read_resource]
    calls one of the three accessors and hands its value to
    [ReadResourceResult], and for any other identifier it raises
    [ValueError] with the text "Unknown resource: <uri>" without an
    event. *)
Theorem catalogs_match_dispatch (db : AlloyDBConnection) (name uri : string)
    (arguments : gmap string pyval) (tr : trace) :
  (if listed_tool name
   then In (call_tool_body str_as_int validation_message db name arguments)
          [fetch_survey_data str_as_int validation_message db arguments;
           get_survey_summary db;
           search_surveys_by_question db arguments]
   else call_tool str_as_int validation_message (Some db) name arguments tr
        = (Ok (tool_text (Plain ("Error: Unknown tool '" +:+ name +:+ "'"))), tr))
  /\ (if listed_resource uri
      then In (read_resource_body contents_error db uri)
             [(stats <- get_survey_statistics db ;;
               lift (ReadResourceResult_init contents_error
                 [ {| type := "text"; text := JsonDumps (row_json stats) |} ]));
              (locations <- get_locations db ;;
               lift (ReadResourceResult_init contents_error
                 [ {| type := "text";
                      text := JsonDumps (JObj
                        [("locations", JList (map JVal locations))]) |} ]));
              (types <- get_respondent_types db ;;
               lift (ReadResourceResult_init contents_error
                 [ {| type := "text";
                      text := JsonDumps (JObj
                        [("respondent_types", JList (map JVal types))]) |} ]))]
      else read_resource_body contents_error db uri tr
           = (Raise (Exception "ValueError" ("Unknown resource: " +:+ uri)), tr)).
Proof.
  split.
  - unfold listed_tool, call_tool, call_tool_body, try_except.
    cbn [Catalog.list_tools map Catalog.tool_name existsb].
    destruct (String.eqb name "fetch_survey_data"); [now left|].
    destruct (String.eqb name "get_survey_summary"); [right; now left|].
    destruct (String.eqb name "search_surveys_by_question");
      [right; right; now left|].
    reflexivity.
  - unfold listed_resource, read_resource_body.
    cbn [Catalog.list_resources map Catalog.uri existsb].
    destruct (String.eqb uri "alloydb://surveys/statistics"); [now left|].
    destruct (String.eqb uri "alloydb://surveys/locations"); [right; now left|].
    destruct (String.eqb uri "alloydb://surveys/respondent-types");
      [right; right; now left|].
    reflexivity.
Qed.

End Catalogs.

(** ** Configuration and start-up *)

Lemma truthy_opt_str_is_set (env : gmap string string) (var : string) :
  truthy (opt_str (Startup.getenv env var)) = true <-> is_set env var.
Proof.
  unfold Startup.getenv, is_set. destruct (env !! var) as [v|]; cbn.
  - rewrite negb_true_iff. split.
    + intros H. exists v. split; [reflexivity|].
      intros ->. discriminate.
    + intros (v' & [= <-] & Hne). now apply String.eqb_neq.
  - split; [discriminate|]. intros (v & ? & _). discriminate.
Qed.

(** X17. The constructor accepts an environment exactly when the four
    required variables are set to non-empty texts, and otherwise raises
    [ValueError]; an accepted object carries the values of the
    environment, "postgres" for an unset database or user, and neither
    a connector nor a connection function yet. *)
Theorem constructor_accepts_iff (env : gmap string string) :
  match Startup.AlloyDBConnection_init env with
  | Ok self =>
      Forall (is_set env) TestServer.required_vars
      /\ Startup.project_id self = env !! "ALLOYDB_PROJECT_ID"
      /\ Startup.region self = env !! "ALLOYDB_REGION"
      /\ Startup.cluster_id self = env !! "ALLOYDB_CLUSTER_ID"
      /\ Startup.instance_id self = env !! "ALLOYDB_INSTANCE_ID"
      /\ Startup.database self = default "postgres" (env !! "ALLOYDB_DATABASE")
      /\ Startup.user self = default "postgres" (env !! "ALLOYDB_USER")
      /\ Startup.password self = env !! "ALLOYDB_PASSWORD"
      /\ Startup.connector self = None
      /\ _getconn (Startup.handle self) = None
  | Raise e =>
      e = Exception "ValueError"
            "Missing required Alloy DB configuration parameters"
      /\ ~ Forall (is_set env) TestServer.required_vars
  end.
Proof.
  unfold Startup.AlloyDBConnection_init. cbv zeta.
  cbn [Startup.project_id Startup.region Startup.cluster_id
       Startup.instance_id forallb].
  destruct (truthy (opt_str (Startup.getenv env "ALLOYDB_PROJECT_ID"))) eqn:Hp;
  destruct (truthy (opt_str (Startup.getenv env "ALLOYDB_REGION"))) eqn:Hr;
  destruct (truthy (opt_str (Startup.getenv env "ALLOYDB_CLUSTER_ID"))) eqn:Hc;
  destruct (truthy (opt_str (Startup.getenv env "ALLOYDB_INSTANCE_ID"))) eqn:Hi;
  cbn [andb].
  1: { split; [|repeat split].
       repeat constructor; now apply truthy_opt_str_is_set. }
  all: split; [reflexivity|];
    intros Hall; unfold TestServer.required_vars in Hall;
    repeat match goal with
           | H : Forall _ (_ :: _) |- _ =>
               let Hk := fresh "Hk" in apply Forall_cons in H as [Hk H]
           end;
    repeat match goal with
           | H : is_set _ _ |- _ => apply truthy_opt_str_is_set in H
           end;
    congruence.
Qed.

(** X18. The check of the environment in [test_server.py] and the guard
    of the constructor agree: the list of missing variables is empty
    exactly when the constructor accepts the environment. *)
Theorem missing_vars_empty_iff (env : gmap string string) :
  TestServer.missing_vars env = []
  <-> exists self, Startup.AlloyDBConnection_init env = Ok self.
Proof.
  unfold TestServer.missing_vars, Startup.AlloyDBConnection_init.
  cbv zeta.
  cbn [TestServer.required_vars List.filter Startup.project_id Startup.region
       Startup.cluster_id Startup.instance_id forallb].
  destruct (truthy (opt_str (Startup.getenv env "ALLOYDB_PROJECT_ID")));
  destruct (truthy (opt_str (Startup.getenv env "ALLOYDB_REGION")));
  destruct (truthy (opt_str (Startup.getenv env "ALLOYDB_CLUSTER_ID")));
  destruct (truthy (opt_str (Startup.getenv env "ALLOYDB_INSTANCE_ID")));
  cbn [negb andb];
  (split; [intros H; try discriminate H; eauto
          |intros [self H]; try discriminate H; reflexivity]).
Qed.

Lemma colon_split (a a' x x' : string) :
  no_colon a = true -> no_colon a' = true ->
  a +:+ ":" +:+ x = a' +:+ ":" +:+ x' ->
  a = a' /\ x = x'.
Proof.
  revert a'. induction a as [|c a IH]; intros [|c' a'] Ha Ha' Heq.
  - change (String ":" x = String ":" x') in Heq.
    injection Heq as Heq. auto.
  - change (String ":" x = String c' (a' +:+ ":" +:+ x')) in Heq.
    injection Heq as Hc _. subst c'. cbn in Ha'. discriminate.
  - change (String c (a +:+ ":" +:+ x) = String ":" x') in Heq.
    injection Heq as Hc _. subst c. cbn in Ha. discriminate.
  - change (String c (a +:+ ":" +:+ x) = String c' (a' +:+ ":" +:+ x')) in Heq.
    injection Heq as Hc Heq. subst c'.
    cbn [no_colon] in Ha, Ha'.
    apply andb_true_iff in Ha as [_ Ha]. apply andb_true_iff in Ha' as [_ Ha'].
    destruct (IH a' Ha Ha' Heq) as [-> ->]. auto.
Qed.

(** X19. The connection name determines its parts: two configurations
    whose project, region and cluster hold no colon and that compose the
    same instance connection name have the same four identifiers. *)
Theorem instance_connection_name_injective (c1 c2 : Config.AlloyDBConfig) :
  no_colon (Config.project_id c1) = true ->
  no_colon (Config.region c1) = true ->
  no_colon (Config.cluster_id c1) = true ->
  no_colon (Config.project_id c2) = true ->
  no_colon (Config.region c2) = true ->
  no_colon (Config.cluster_id c2) = true ->
  Config.instance_connection_name c1 = Config.instance_connection_name c2 ->
  Config.project_id c1 = Config.project_id c2
  /\ Config.region c1 = Config.region c2
  /\ Config.cluster_id c1 = Config.cluster_id c2
  /\ Config.instance_id c1 = Config.instance_id c2.
Proof.
  unfold Config.instance_connection_name.
  intros Hp1 Hr1 Hc1 Hp2 Hr2 Hc2 Heq.
  apply colon_split in Heq as [Hp Heq]; [|assumption..].
  apply colon_split in Heq as [Hr Heq]; [|assumption..].
  apply colon_split in Heq as [Hc Hi]; [|assumption..].
  auto.
Qed.

Lemma instance_connection_name_injective_witness :
  "proj" = "proj" /\ "europe-west1" = "europe-west1"
  /\ "surveys" = "surveys" /\ "primary" = "primary".
Proof.
  apply (instance_connection_name_injective
           {| Config.project_id := "proj"; Config.region := "europe-west1";
              Config.cluster_id := "surveys"; Config.instance_id := "primary";
              Config.database := "postgres"; Config.user := "postgres";
              Config.password := None |}
           {| Config.project_id := "proj"; Config.region := "europe-west1";
              Config.cluster_id := "surveys"; Config.instance_id := "primary";
              Config.database := "surveys"; Config.user := "reader";
              Config.password := Some "secret" |});
    reflexivity.
Defined.

Section ConfigAgreement.

Variable validation_message : gmap string string -> string.

(** X20. [config.py] and the constructor read the environment alike:
    whenever the constructor accepts, [AlloyDBConfig.from_env] accepts
    too, and the connection request that [initialize] prepares names the
    instance, user, password and database of that configuration, with
    the driver "asyncpg".  [from_env] itself accepts exactly when the
    four required variables are set, empty or not. *)
Theorem config_agrees_with_constructor (env : gmap string string) :
  (forall self,
     Startup.AlloyDBConnection_init env = Ok self ->
     exists cfg,
       Config.from_env validation_message env = Ok cfg
       /\ Startup.getconn_request self
          = {| Startup.req_instance := Config.instance_connection_name cfg;
               Startup.req_driver := "asyncpg";
               Startup.req_user := Config.user cfg;
               Startup.req_password := Config.password cfg;
               Startup.req_db := Config.database cfg |})
  /\ ((exists cfg, Config.from_env validation_message env = Ok cfg)
      <-> Forall (fun var => is_Some (env !! var)) TestServer.required_vars).
Proof.
  split.
  - intros self. unfold Startup.AlloyDBConnection_init, Config.from_env.
    cbv zeta.
    cbn [Startup.project_id Startup.region Startup.cluster_id
         Startup.instance_id forallb].
    unfold Startup.getenv.
    destruct (env !! "ALLOYDB_PROJECT_ID") as [p|]; [|discriminate].
    destruct (env !! "ALLOYDB_REGION") as [r|];
      [|cbn; rewrite andb_false_r; discriminate].
    destruct (env !! "ALLOYDB_CLUSTER_ID") as [c|];
      [|cbn; rewrite !andb_false_r; discriminate].
    destruct (env !! "ALLOYDB_INSTANCE_ID") as [i|];
      [|cbn; rewrite !andb_false_r; discriminate].
    destruct (_ && _); [|discriminate].
    intros [= <-]. eexists. split; reflexivity.
  - unfold Config.from_env, Startup.getenv, TestServer.required_vars. split.
    + intros [cfg H].
      destruct (env !! "ALLOYDB_PROJECT_ID") eqn:Hp; [|discriminate].
      destruct (env !! "ALLOYDB_REGION") eqn:Hr; [|discriminate].
      destruct (env !! "ALLOYDB_CLUSTER_ID") eqn:Hc; [|discriminate].
      destruct (env !! "ALLOYDB_INSTANCE_ID") eqn:Hi; [|discriminate].
      repeat apply Forall_cons_2; try apply Forall_nil_2;
        [rewrite Hp|rewrite Hr|rewrite Hc|rewrite Hi]; eexists; reflexivity.
    + intros Hall.
      repeat match goal with
             | H : Forall _ (_ :: _) |- _ =>
                 let Hk := fresh "Hk" in apply Forall_cons in H as [Hk H]
             end.
      destruct Hk as [? ->], Hk0 as [? ->], Hk1 as [? ->], Hk2 as [? ->].
      eauto.
Qed.

End ConfigAgreement.

(** X21. A run of [main] from a fresh process serves only after the
    connector was created, and then with a connection that has its
    connection function; the connector is then closed as the last act,
    whatever the serving did.  When the connector cannot be created
    nothing is served or closed, and when the constructor rejects the
    environment nothing happens at all and the global stays unset. *)
Theorem main_lifecycle (w : Startup.world) :
  let evs := snd (Startup.main w None) in
  (forall c,
     In (Startup.LcServe c) evs ->
     exists d, Startup.new_connector w = Ok d
               /\ c = Some {| _getconn := Some d |}
               /\ evs = [Startup.LcConnector; Startup.LcServe c; Startup.LcClose])
  /\ (forall e,
        Startup.new_connector w = Raise e ->
        ~ In Startup.LcClose evs /\ forall c, ~ In (Startup.LcServe c) evs)
  /\ (forall e,
        Startup.AlloyDBConnection_init (Startup.env w) = Raise e ->
        Startup.main w None = (Raise e, None, [])).
Proof.
  cbv zeta. unfold Startup.main, Startup.main_body.
  destruct (Startup.AlloyDBConnection_init (Startup.env w)) as [self|e0] eqn:Hinit.
  2: { cbn. split; [|split].
       - intros c [].
       - intros e _. split; [intros []|intros c []].
       - intros e [= <-]. reflexivity. }
  assert (Hconn : Startup.connector self = None).
  { revert Hinit. unfold Startup.AlloyDBConnection_init. cbv zeta.
    destruct (forallb _ _); [|discriminate]. now intros [= <-]. }
  unfold Startup.initialize, Startup.close.
  destruct (Startup.new_connector w) as [d|e1]; cbn.
  - destruct (Startup.close_async w); cbn; (split; [|split]).
    all: try (intros ? H; discriminate H).
    all: intros c [H|[H|[H|[]]]]; try discriminate H;
      injection H as <-; exists d; auto.
  - rewrite Hconn. cbn. split; [|split].
    + intros c [H|[]]. discriminate H.
    + intros e _. split; [intros [H|[]]; discriminate H|].
      intros c [H|[]]. discriminate H.
    + intros e H. discriminate H.
Qed.

Lemma config_agrees_with_constructor_witness :
  exists cfg,
    Config.from_env (fun _ => "validation error") sample_env = Ok cfg
    /\ "proj:europe-west1:surveys:primary" = Config.instance_connection_name cfg.
Proof.
  destruct (proj1 (config_agrees_with_constructor (fun _ => "validation error")
                     sample_env)
              {| Startup.connector := None;
                 Startup.project_id := Some "proj";
                 Startup.region := Some "europe-west1";
                 Startup.cluster_id := Some "surveys";
                 Startup.instance_id := Some "primary";
                 Startup.database := "postgres";
                 Startup.user := "postgres";
                 Startup.password := None;
                 Startup.handle := {| _getconn := None |} |}
              eq_refl) as (cfg & Hcfg & Hreq).
  exists cfg. split; [exact Hcfg|].
  exact (f_equal Startup.req_instance Hreq).
Defined.

Lemma main_lifecycle_witness :
  exists d,
    Ok (answering (Ok [])) = Ok d
    /\ Some sample_db = Some {| _getconn := Some d |}
    /\ snd (Startup.main
              {| Startup.env := sample_env;
                 Startup.new_connector := Ok (answering (Ok []));
                 Startup.serve := fun _ => Raise CancelledError;
                 Startup.close_async := None |} None)
       = [Startup.LcConnector; Startup.LcServe (Some sample_db); Startup.LcClose].
Proof.
  apply (proj1 (main_lifecycle
                  {| Startup.env := sample_env;
                     Startup.new_connector := Ok (answering (Ok []));
                     Startup.serve := fun _ => Raise CancelledError;
                     Startup.close_async := None |})
           (Some sample_db)).
  right. left. reflexivity.
Defined.

(** X22. [get_survey_statistics] returns the first row of the answer and
    ignores any further row; when the answer has no row it returns the
    empty mapping instead of failing on an index.  The round trip is
    complete in both cases. *)
Theorem statistics_first_row_or_empty (d : driver) (tr : trace)
    (rows : list row) :
  drv_connect d tr = None ->
  drv_fetch d (tr ++ [EvAcquire]) stats_query [] = Ok rows ->
  drv_close d (tr ++ [EvAcquire; EvFetch stats_query []]) = None ->
  get_survey_statistics {| _getconn := Some d |} tr
  = (Ok (hd [] rows), tr ++ [EvAcquire; EvFetch stats_query []; EvClose]).
Proof.
  intros Hconn Hfetch Hclose.
  unfold get_survey_statistics, bind.
  rewrite (execute_query_run _ _ _ _ Hconn). cbn [fetch_args].
  rewrite Hclose, Hfetch. now destruct rows.
Qed.

Lemma statistics_first_row_or_empty_witness :
  get_survey_statistics sample_db []
  = (Ok [], [EvAcquire; EvFetch stats_query []; EvClose]).
Proof.
  apply (statistics_first_row_or_empty (answering (Ok [])) [] []); reflexivity.
Defined.

(** ** Resource reads *)

Section ResourceReads.

Variable contents_error : list TextContent -> string.

Lemma read_resource_body_raises (db : AlloyDBConnection) (uri : string)
    (tr : trace) :
  exists e, fst (read_resource_body contents_error db uri tr) = Raise e.
Proof.
  unfold read_resource_body.
  repeat match goal with |- context [if ?c then _ else _] => destruct c end;
    unfold bind, lift, raise;
    try match goal with
        | |- context [match ?m tr with _ => _ end] =>
            destruct (m tr) as [[a|e] tr1]
        end;
    cbn [fst ReadResourceResult_init]; eexists; reflexivity.
Qed.

(** X23. No resource read made with a connection object returns.  The
    [try] of [read_resource] ends in an exception in every branch: the
    accessor's, the [ValueError] of an unknown identifier, or the
    [ValidationError] of [ReadResourceResult], which takes no
    [TextContent].  A cancellation leaves as it is; any other exception
    reaches the handler, whose own [ReadResourceResult] over the
    [TextContent] of the error text raises [ValidationError] out of
    [read_resource].  The events are those of the resource's query. *)
Theorem initialised_read_raises (db : AlloyDBConnection) (uri : string)
    (tr : trace) :
  exists e evs,
    read_resource contents_error (Some db) uri tr = (Raise e, tr ++ evs)
    /\ runs (resource_plan uri) evs
    /\ (e = CancelledError
        \/ exists msg,
             e = Exception "ValidationError"
                   (contents_error
                      [ {| type := "text"; text := Plain ("Error: " +:+ msg) |} ])).
Proof.
  destruct (read_resource_runs contents_error (Some db) uri tr)
    as (evs & Htr & Hrun).
  destruct (read_resource_body_raises db uri tr) as [e0 He0].
  revert Htr. unfold read_resource, try_except.
  destruct (read_resource_body contents_error db uri tr) as [r tr1].
  cbn [fst] in He0. subst r.
  destruct e0 as [cls msg|]; cbn [is_Exception lift ReadResourceResult_init snd];
    intros ->.
  - eexists _, evs. split; [reflexivity|]. split; [exact Hrun|].
    right. exists msg. reflexivity.
  - exists CancelledError, evs. split; [reflexivity|]. split; [exact Hrun|].
    now left.
Qed.

End ResourceReads.
